(** * The daily reminder pass of [app.py]

    A shallow embedding of [daily_reminder_handler] and of the Python
    primitives it relies on ([str.replace], [str.split], [str.strip],
    [int], [datetime.strptime], date subtraction), followed by the
    properties of the evaluation pass.

    Cells, item ids and messages are byte strings (UTF-8 text).  Only the
    ASCII white space and the ASCII digits are recognised by [strip],
    [int] and [strptime]; the other Unicode spaces and digits that Python
    also accepts are outside this model. *)

From Stdlib Require Import ZArith Ascii String.
From stdpp Require Import gmap strings list fin_maps pretty.

Local Open Scope string_scope.
Local Open Scope Z_scope.
Local Open Scope list_scope.

(** ** Python string primitives *)

Module PyStr.

(** [c.isspace()] on the ASCII range: tab, line feed, vertical tab, form
    feed, carriage return, the four separators 0x1c..0x1f and space. *)
Definition is_space (c : ascii) : bool :=
  let n := nat_of_ascii c in
  ((9 <=? n)%nat && (n <=? 13)%nat) || ((28 <=? n)%nat && (n <=? 32)%nat).

Fixpoint lstrip (s : string) : string :=
  match s with
  | String c s' => if is_space c then lstrip s' else s
  | EmptyString => EmptyString
  end.

Fixpoint rstrip (s : string) : string :=
  match s with
  | EmptyString => EmptyString
  | String c s' =>
      match rstrip s' with
      | EmptyString => if is_space c then EmptyString else String c EmptyString
      | r => String c r
      end
  end.

(** [s.strip()] *)
Definition strip (s : string) : string := lstrip (rstrip s).

(** [s.replace(old, new)] for one-character [old] and [new]. *)
Fixpoint replace (old new : ascii) (s : string) : string :=
  match s with
  | EmptyString => EmptyString
  | String c s' =>
      String (if Ascii.eqb c old then new else c) (replace old new s')
  end.

(** [s.split(sep)] for a one-character separator: never the empty list,
    the empty string splits into one empty field. *)
Fixpoint split (sep : ascii) (s : string) : list string :=
  match s with
  | EmptyString => [EmptyString]
  | String c s' =>
      if Ascii.eqb c sep then EmptyString :: split sep s'
      else match split sep s' with
           | h :: t => String c h :: t
           | [] => [String c EmptyString]
           end
  end.

(** Truthiness of a string: [if s] holds for the non-empty ones. *)
Definition truthy (s : string) : bool :=
  match s with EmptyString => false | String _ _ => true end.

Definition digit_value (c : ascii) : option Z :=
  let n := nat_of_ascii c in
  if ((48 <=? n)%nat && (n <=? 57)%nat)%bool then Some (Z.of_nat n - 48) else None.

(** Default of [sys.int_max_str_digits]: a longer literal is a
    [ValueError]. *)
Definition int_max_str_digits : nat := 4300.

(** The digits of a decimal literal, left to right: single underscores
    are allowed between two digits only.  [seen] counts the digits,
    [after_digit] tells whether the previous character was a digit. *)
Fixpoint int_digits (s : string) (acc : Z) (seen : nat) (after_digit : bool)
  : option (Z * nat) :=
  match s with
  | EmptyString => if after_digit then Some (acc, seen) else None
  | String c s' =>
      match digit_value c with
      | Some d => int_digits s' (10 * acc + d) (S seen) true
      | None =>
          if (Ascii.eqb c "_" && after_digit)%bool
          then int_digits s' acc seen false
          else None
      end
  end.

Definition int_magnitude (s : string) : option Z :=
  match int_digits s 0 0%nat false with
  | Some (v, seen) =>
      if (int_max_str_digits <? seen)%nat then None else Some v
  | None => None
  end.

(** [int(s)] in base 10; [None] stands for the [ValueError]. *)
Definition int (s : string) : option Z :=
  match strip s with
  | String "+" r => int_magnitude r
  | String "-" r => Z.opp <$> int_magnitude r
  | r => int_magnitude r
  end.

End PyStr.

(** ** Calendar dates *)

Module PyDate.

Record date := mkdate { year : Z; month : Z; day : Z }.

Definition is_leap (y : Z) : bool :=
  (y mod 4 =? 0) && (negb (y mod 100 =? 0) || (y mod 400 =? 0)).

Definition days_in_month (y m : Z) : Z :=
  if m =? 2 then (if is_leap y then 29 else 28)
  else if (m =? 4) || (m =? 6) || (m =? 9) || (m =? 11) then 30
  else 31.

(** Number of days before January 1st of year [y]. *)
Definition days_before_year (y : Z) : Z :=
  let p := y - 1 in p * 365 + p / 4 - p / 100 + p / 400.

(** Number of days of year [y] before the first day of month [m]. *)
Fixpoint days_before_month_aux (y : Z) (k : nat) : Z :=
  match k with
  | O => 0
  | S k' => days_before_month_aux y k' + days_in_month y (Z.of_nat k)
  end.

Definition days_before_month (y m : Z) : Z :=
  days_before_month_aux y (Z.to_nat (m - 1)).

(** [d.toordinal()]: January 1st of year 1 is day 1. *)
Definition toordinal (d : date) : Z :=
  days_before_year (year d) + days_before_month (year d) (month d) + day d.

(** [(a - b).days] *)
Definition days_between (a b : date) : Z := toordinal a - toordinal b.

(** The range check of the [date] constructor. *)
Definition valid (d : date) : bool :=
  (1 <=? year d) && (year d <=? 9999) &&
  (1 <=? month d) && (month d <=? 12) &&
  (1 <=? day d) && (day d <=? days_in_month (year d) (month d)).

Definition in_range (lo hi : Z) (c : ascii) : option Z :=
  match PyStr.digit_value c with
  | Some d => if (lo <=? d) && (d <=? hi) then Some d else None
  | None => None
  end.

(** The alternatives of a directive, in the order the regular expression
    tries them; each gives the value read and the rest of the input. *)

(** [%m] is [1[0-2]|0[1-9]|[1-9]]. *)
Definition month_alts (s : string) : list (Z * string) :=
  match s with
  | String a r1 =>
      (match r1 with
       | String b r2 =>
           (if Ascii.eqb a "1"
            then match in_range 0 2 b with Some v => [(10 + v, r2)] | None => [] end
            else []) ++
           (if Ascii.eqb a "0"
            then match in_range 1 9 b with Some v => [(v, r2)] | None => [] end
            else [])
       | EmptyString => []
       end) ++
      match in_range 1 9 a with Some v => [(v, r1)] | None => [] end
  | EmptyString => []
  end.

(** [%d] is [3[0-1]|[1-2]\d|0[1-9]|[1-9]| [1-9]]. *)
Definition day_alts (s : string) : list (Z * string) :=
  match s with
  | String a r1 =>
      (match r1 with
       | String b r2 =>
           (if Ascii.eqb a "3"
            then match in_range 0 1 b with Some v => [(30 + v, r2)] | None => [] end
            else []) ++
           (match in_range 1 2 a, in_range 0 9 b with
            | Some u, Some v => [(10 * u + v, r2)]
            | _, _ => []
            end) ++
           (if Ascii.eqb a "0"
            then match in_range 1 9 b with Some v => [(v, r2)] | None => [] end
            else [])
       | EmptyString => []
       end) ++
      match in_range 1 9 a with Some v => [(v, r1)] | None => [] end ++
      match r1 with
      | String b r2 =>
          if Ascii.eqb a " "
          then match in_range 1 9 b with Some v => [(v, r2)] | None => [] end
          else []
      | EmptyString => []
      end
  | EmptyString => []
  end.

(** [%Y] is four digits; the whole input must be consumed by then. *)
Definition year_end (s : string) : option Z :=
  match s with
  | String a (String b (String c (String d EmptyString))) =>
      match PyStr.digit_value a, PyStr.digit_value b,
            PyStr.digit_value c, PyStr.digit_value d with
      | Some a', Some b', Some c', Some d' =>
          Some (1000 * a' + 100 * b' + 10 * c' + d')
      | _, _, _, _ => None
      end
  | _ => None
  end.

Definition slash (s : string) : option string :=
  match s with
  | String c r => if Ascii.eqb c "/" then Some r else None
  | EmptyString => None
  end.

(** First alternative, in order, after which the continuation matches. *)
Fixpoint first_match {A B : Type} (alts : list (A * string))
    (k : A -> string -> option B) : option B :=
  match alts with
  | [] => None
  | (v, rest) :: alts' =>
      match k v rest with
      | Some r => Some r
      | None => first_match alts' k
      end
  end.

(** The match of [%m/%d/%Y] against the whole string. *)
Definition match_mdY (s : string) : option (Z * Z * Z) :=
  first_match (month_alts s) (fun m s1 =>
    match slash s1 with
    | None => None
    | Some s2 =>
        first_match (day_alts s2) (fun d s3 =>
          match slash s3 with
          | None => None
          | Some s4 =>
              match year_end s4 with
              | Some y => Some (m, d, y)
              | None => None
              end
          end)
    end).

(** [datetime.strptime(s, '%m/%d/%Y').date()]; [None] stands for the
    [ValueError] (no match, or a date that does not exist). *)
Definition strptime_mdY (s : string) : option date :=
  match match_mdY s with
  | Some (m, d, y) =>
      let r := mkdate y m d in
      if valid r then Some r else None
  | None => None
  end.

End PyDate.

(** ** The services and the effects of a pass *)

(** An exception travelling up the handler. *)
Inductive exn :=
  | ValueError (literal : string)   (* [int] on a string that is no integer *)
  | IndexError                      (* [all_values[0]] on a sheet without rows *)
  | ServiceError (detail : string). (* raised by the secrets store or the sheet *)

(** What a pass does to the outside, in the order it does it: the lines it
    prints, its writes to the status store, and its calls of the two
    senders. *)
Inductive call :=
  | Print (line : string)
  | PutItem (item_id status : string)
  | SendTelegram (message : string)
  | SendEmail (subject body : string).

(** The status table: ItemID to stored item, an item being a dictionary of
    attributes ([ItemID], [Status]). *)
Abbreviation table_state := (gmap string (gmap string string)).

(** A computation reads and updates the table, records its calls, and
    either returns or raises.  What was done before a [raise] stays done. *)
Definition M (A : Type) : Type := table_state -> (exn + A) * table_state * list call.

Definition ret {A} (a : A) : M A := fun t => (inr a, t, []).

Definition raise {A} (e : exn) : M A := fun t => (inl e, t, []).

Definition bind {A B} (m : M A) (f : A -> M B) : M B :=
  fun t =>
    match m t with
    | (inl e, t1, c1) => (inl e, t1, c1)
    | (inr a, t1, c1) =>
        match f a t1 with
        | (r, t2, c2) => (r, t2, c1 ++ c2)
        end
    end.

(** [try: body except Exception as e: handler(e)] *)
Definition try_except {A} (body : M A) (handler : exn -> M A) : M A :=
  fun t =>
    match body t with
    | (inl e, t1, c1) =>
        match handler e t1 with
        | (r, t2, c2) => (r, t2, c1 ++ c2)
        end
    | (inr a, t1, c1) => (inr a, t1, c1)
    end.

Notation "x <- m ;; k" := (bind m (fun x => k))
  (at level 100, m at next level, right associativity).
Notation "m ;;; k" := (bind m (fun _ => k))
  (at level 100, right associativity).

Definition lift {A} (r : exn + A) : M A :=
  match r with
  | inl e => raise e
  | inr a => ret a
  end.

Definition print (line : string) : M unit :=
  fun t => (inr tt, t, [Print line]).

(** [table.get_item(Key={'ItemID': item_id})]: the response holds the
    item under ['Item'] when there is one. *)
Definition get_item (item_id : string) : M (option (gmap string string)) :=
  fun t => (inr (t !! item_id), t, []).

(** [table.put_item(Item={'ItemID': item_id, 'Status': status})] *)
Definition put_item (item_id status : string) : M unit :=
  fun t =>
    (inr tt,
     <[item_id := {["ItemID" := item_id; "Status" := status]}]> t,
     [PutItem item_id status]).

(** The two senders catch what their transport raises, so from the
    handler's side a send is a call that returns. *)
Definition send_telegram_alert (message : string) : M unit :=
  fun t => (inr tt, t, [SendTelegram message]).

Definition send_email_alert (subject body : string) : M unit :=
  fun t => (inr tt, t, [SendEmail subject body]).

(** ** Formatting *)

Definition nl : string := String (ascii_of_nat 10) EmptyString.

Definition dquote : string := String (ascii_of_nat 34) EmptyString.

Fixpoint zeros (n : nat) : string :=
  match n with
  | O => ""
  | S k => "0" +:+ zeros k
  end.

Definition zfill (width : nat) (s : string) : string :=
  zeros (width - String.length s) +:+ s.

(** [str(d)] of a date: [YYYY-MM-DD]. *)
Definition date_str (d : PyDate.date) : string :=
  zfill 4 (pretty (PyDate.year d)) +:+ "-" +:+
  zfill 2 (pretty (PyDate.month d)) +:+ "-" +:+
  zfill 2 (pretty (PyDate.day d)).

(** [str(l)] of a list of integers. *)
Definition list_str (l : list Z) : string :=
  "[" +:+ String.concat ", " (pretty <$> l) +:+ "]".

(** The markers in front of the three chat messages, as the source file
    spells them. *)
Definition overdue_marker : string := "ðŸš¨".
Definition reminder_marker : string := "ðŸ””".
Definition critical_marker : string := "ðŸ”´".

Definition overdue_subject (item_name : string) : string :=
  "OVERDUE: " +:+ item_name.

Definition overdue_body (due_date_str : string) (days_until_due : Z)
    (policy_no : string) : string :=
  "This item was due on " +:+ due_date_str +:+ " and is overdue by " +:+
  pretty (- days_until_due) +:+ " days." +:+ nl +:+ "Policy No: " +:+ policy_no.

Definition reminder_subject (item_name : string) (days_until_due : Z) : string :=
  "Reminder: " +:+ item_name +:+ " in " +:+ pretty days_until_due +:+ " days".

Definition reminder_body (item_name due_date_str policy_no amount
    name_on_inv place_branch : string) : string :=
  "This is a reminder that your '" +:+ item_name +:+ "' is due on " +:+
  due_date_str +:+ "." +:+ nl +:+ nl +:+
  "Policy/Inv. No.: " +:+ policy_no +:+ nl +:+
  "Amount: " +:+ amount +:+ nl +:+
  "Name on Inv.: " +:+ name_on_inv +:+ nl +:+
  "Place/Branch: " +:+ place_branch.

(** ** The handler *)

(** [{header: i for i, header in enumerate(headers)}]: of two equal
    labels the later column wins. *)
Fixpoint header_map_from (i : nat) (headers : list string) (m : gmap string nat)
  : gmap string nat :=
  match headers with
  | [] => m
  | h :: hs => header_map_from (S i) hs (<[h := i]> m)
  end.

Definition header_map (headers : list string) : gmap string nat :=
  header_map_from 0 headers ∅.

(** [row[header_map.get(name)] if name in header_map and
    len(row) > header_map.get(name) else default]; [row !! i] is [None]
    exactly when [len(row) <= i]. *)
Definition cell (hm : gmap string nat) (row : list string)
    (name default : string) : string :=
  match hm !! name with
  | Some i =>
      match row !! i with
      | Some v => v
      | None => default
      end
  | None => default
  end.

(** [f"{item_name.replace(' ', '-')}-{due_date_str}"] *)
Definition item_id_of (item_name due_date_str : string) : string :=
  PyStr.replace " " "-" item_name +:+ "-" +:+ due_date_str.

(** [response.get('Item', {}).get('Status', 'Active')] *)
Definition status_of (response : option (gmap string string)) : string :=
  default "Active" (default ∅ response !! "Status").

(** [[int(d.strip()) for d in fields if d.strip()]]: the comprehension
    stops at the first field on which [int] raises. *)
Fixpoint int_fields (fields : list string) : exn + list Z :=
  match fields with
  | [] => inr []
  | d :: rest =>
      if PyStr.truthy (PyStr.strip d) then
        match PyStr.int (PyStr.strip d) with
        | None => inl (ValueError (PyStr.strip d))
        | Some n =>
            match int_fields rest with
            | inl e => inl e
            | inr ns => inr (n :: ns)
            end
        end
      else int_fields rest
  end.

Definition advance_days (advance_days_str : string) : exn + list Z :=
  int_fields (PyStr.split "," advance_days_str).

(** [days_until_due in advance_days_list] *)
Definition mem (d : Z) (l : list Z) : bool := bool_decide (d ∈ l).

(** The body of the loop for the row of index [i]; [ret tt] where the
    source has [continue] or reaches the end of the body. *)
Definition process_row (today : PyDate.date) (hm : gmap string nat)
    (i : nat) (row : list string) : M unit :=
  let row_num := (i + 2)%nat in
  let item_name := cell hm row "ItemName" "" in
  let due_date_str := cell hm row "DueDate" "" in
  print (nl +:+ "--- Processing Row " +:+ pretty row_num +:+ ": " +:+ item_name +:+ " ---") ;;;
  if negb (PyStr.truthy item_name) || negb (PyStr.truthy due_date_str) then
    print ("Skipping row " +:+ pretty row_num +:+ " due to missing ItemName or DueDate.")
  else
    let item_id := item_id_of item_name due_date_str in
    print ("Generated ItemID: " +:+ item_id) ;;;
    response <- get_item item_id ;;
    let item_status := status_of response in
    print ("DynamoDB Status: " +:+ item_status) ;;;
    if String.eqb item_status "Handled" then
      print "Item is handled. Skipping."
    else
      (match response with
       | None =>
           print "New item. Adding to DynamoDB as Active." ;;;
           put_item item_id "Active"
       | Some _ => ret tt
       end) ;;;
      match PyDate.strptime_mdY due_date_str with
      | None =>
          print ("ERROR: Could not parse date '" +:+ due_date_str +:+
                 "'. Ensure format is MM/DD/YYYY.")
      | Some due_date =>
          let days_until_due := PyDate.days_between due_date today in
          print ("Parsed DueDate: " +:+ date_str due_date +:+
                 ", Days Until Due: " +:+ pretty days_until_due) ;;;
          if days_until_due <? 0 then
            let policy_no := cell hm row "Policy/Inv. No." "N/A" in
            let subject := overdue_subject item_name in
            let body := overdue_body due_date_str days_until_due policy_no in
            print "OVERDUE MATCH. Sending notification." ;;;
            send_telegram_alert (overdue_marker +:+ " " +:+ subject +:+ nl +:+ body) ;;;
            send_email_alert subject body
          else
            let advance_days_str := cell hm row "AdvanceDays" "" in
            advance_days_list <- lift (advance_days advance_days_str) ;;
            print ("Advance Days List to check against: " +:+ list_str advance_days_list) ;;;
            if mem days_until_due advance_days_list then
              print ("MATCH FOUND! Sending notification for " +:+
                     pretty days_until_due +:+ " days away.") ;;;
              let policy_no := cell hm row "Policy/Inv. No." "N/A" in
              let amount := cell hm row "Amount" "N/A" in
              let name_on_inv := cell hm row "Name on Inv." "N/A" in
              let place_branch := cell hm row "Place/Branch" "N/A" in
              let subject := reminder_subject item_name days_until_due in
              let body := reminder_body item_name due_date_str policy_no amount
                            name_on_inv place_branch in
              send_telegram_alert (reminder_marker +:+ " " +:+ subject) ;;;
              send_email_alert subject body
            else print "No reminder needed today."
      end.

(** [for i, row in enumerate(reminders_as_lists): ...], from index [i] on. *)
Fixpoint process_rows (today : PyDate.date) (hm : gmap string nat)
    (i : nat) (rows : list (list string)) : M unit :=
  match rows with
  | [] => ret tt
  | row :: rest =>
      process_row today hm i row ;;; process_rows today hm (S i) rest
  end.

Record response := mkresponse { statusCode : Z; body : string }.

(** [{'statusCode': 200, 'body': json.dumps('Success')}] *)
Definition success : response := mkresponse 200 (dquote +:+ "Success" +:+ dquote).

(** The steps inside the [try]: [fetched] is what authenticating and
    [worksheet.get_all_values()] gave, the rows of the sheet or the
    exception one of these calls raised. *)
Definition pass (today : PyDate.date) (fetched : exn + list (list string))
  : M response :=
  all_values <- lift fetched ;;
  match all_values with
  | [] => raise IndexError
  | headers :: reminders_as_lists =>
      print ("Found " +:+ pretty (length reminders_as_lists) +:+
             " records in the spreadsheet.") ;;;
      process_rows today (header_map headers) 0 reminders_as_lists ;;;
      print (nl +:+ "Daily reminder check finished successfully.") ;;;
      ret success
  end.

(** [daily_reminder_handler]: [today] is [datetime.now().date()] and
    [str_of] is Python's text of an exception, [f"{e}"]. *)
Definition daily_reminder_handler (str_of : exn -> string) (today : PyDate.date)
    (fetched : exn + list (list string)) : M response :=
  print "Starting daily reminder check..." ;;;
  try_except (pass today fetched)
    (fun e =>
       print ("An unhandled error occurred: " +:+ str_of e) ;;;
       send_telegram_alert (critical_marker +:+ " CRITICAL ERROR in Lambda: " +:+ str_of e) ;;;
       raise e).

(** ** Reading an outcome *)

Definition result_of {A} (r : (exn + A) * table_state * list call) : exn + A := r.1.1.
Definition table_of {A} (r : (exn + A) * table_state * list call) : table_state := r.1.2.
Definition calls_of {A} (r : (exn + A) * table_state * list call) : list call := r.2.

Definition is_put (c : call) : bool :=
  match c with PutItem _ _ => true | _ => false end.

Definition is_send (c : call) : bool :=
  match c with SendTelegram _ | SendEmail _ _ => true | _ => false end.

(** The writes to the store and the sends among a list of calls. *)
Definition puts (cs : list call) : list call := List.filter is_put cs.
Definition sends (cs : list call) : list call := List.filter is_send cs.

(** A notification event, and the two sends that deliver it. *)
Inductive notification :=
  | Overdue (item_name due_date_str : string) (days_until_due : Z)
      (policy_no : string)
  | DueSoon (item_name due_date_str : string) (days_until_due : Z)
      (policy_no amount name_on_inv place_branch : string).

Definition delivery (n : notification) : list call :=
  match n with
  | Overdue item_name due_date_str days_until_due policy_no =>
      let subject := overdue_subject item_name in
      let body := overdue_body due_date_str days_until_due policy_no in
      [SendTelegram (overdue_marker +:+ " " +:+ subject +:+ nl +:+ body);
       SendEmail subject body]
  | DueSoon item_name due_date_str days_until_due policy_no amount
      name_on_inv place_branch =>
      let subject := reminder_subject item_name days_until_due in
      [SendTelegram (reminder_marker +:+ " " +:+ subject);
       SendEmail subject
         (reminder_body item_name due_date_str policy_no amount
            name_on_inv place_branch)]
  end.

(** The first lines a row prints, and what the first-seen registration
    adds to the calls and to the table. *)
Definition opening (i : nat) (item_name : string) : call :=
  Print (nl +:+ "--- Processing Row " +:+ pretty (i + 2)%nat +:+ ": " +:+
         item_name +:+ " ---").

Definition looked_up (t : table_state) (item_id : string) : list call :=
  [Print ("Generated ItemID: " +:+ item_id);
   Print ("DynamoDB Status: " +:+ status_of (t !! item_id))].

Definition first_seen (t : table_state) (item_id : string) : list call :=
  match t !! item_id with
  | None => [Print "New item. Adding to DynamoDB as Active."; PutItem item_id "Active"]
  | Some _ => []
  end.

Definition registered (t : table_state) (item_id : string) : table_state :=
  match t !! item_id with
  | None => <[item_id := {["ItemID" := item_id; "Status" := "Active"]}]> t
  | Some _ => t
  end.

(** The writes of a pass that concern one ItemID. *)
Definition is_put_of (item_id : string) (c : call) : bool :=
  match c with PutItem k _ => String.eqb k item_id | _ => false end.

Definition puts_of (item_id : string) (cs : list call) : list call :=
  List.filter (is_put_of item_id) cs.

(** The name, due date and ItemID of a row, and the event of each kind
    that the row gives rise to. *)
Abbreviation name_of hm row := (cell hm row "ItemName" "").
Abbreviation due_of hm row := (cell hm row "DueDate" "").
Abbreviation id_of hm row := (item_id_of (name_of hm row) (due_of hm row)).

Definition overdue_event (hm : gmap string nat) (row : list string) (d : Z)
  : notification :=
  Overdue (name_of hm row) (due_of hm row) d (cell hm row "Policy/Inv. No." "N/A").

Definition due_soon_event (hm : gmap string nat) (row : list string) (d : Z)
  : notification :=
  DueSoon (name_of hm row) (due_of hm row) d
    (cell hm row "Policy/Inv. No." "N/A") (cell hm row "Amount" "N/A")
    (cell hm row "Name on Inv." "N/A") (cell hm row "Place/Branch" "N/A").

(** The ItemID in the words of the specification: every space of the name
    becomes a hyphen, then come a hyphen and the due-date string. *)
Definition item_id_spec (item_name due_date_str : string) : string :=
  string_of_list_ascii
    (((fun c : ascii => if decide (c = " "%char) then "-"%char else c)
        <$> list_ascii_of_string item_name)
     ++ ["-"%char] ++ list_ascii_of_string due_date_str).

(** A sheet and a table to run the pass on. *)
Definition sample_headers : list string :=
  ["ItemName"; "DueDate"; "AdvanceDays"; "Policy/Inv. No."; "Amount"].

Definition car_insurance : list string :=
  ["Car Insurance"; "03/01/2025"; "7,3,1"; "P-1"; "120"].

Definition car_insurance_hyphen : list string :=
  ["Car-Insurance"; "03/01/2025"; "7,3,1"; "P-2"; "80"].

Definition car_insurance_malformed : list string :=
  ["Car Insurance"; "03/01/2025"; "7,abc"; "P-1"; "120"].

Definition car_insurance_bad_date : list string :=
  ["Car Insurance"; "2025-03-01"; "7,3,1"; "P-1"; "120"].

Definition home_loan : list string :=
  ["Home Loan"; "02/25/2025"; "3"; "L-9"; "900"].

Definition handled_item : gmap string string :=
  {["ItemID" := "Car-Insurance-03/01/2025"; "Status" := "Handled"]}.

Definition handled_table : table_state :=
  {["Car-Insurance-03/01/2025" := handled_item]}.

(** Runs the monadic steps whose outcome is known. *)
Ltac run_row :=
  cbv beta iota zeta delta
    [process_row bind ret raise lift print get_item put_item
     send_telegram_alert send_email_alert].

(** Reads the components of an outcome given as a triple. *)
Ltac read_outcome :=
  repeat match goal with
    | |- context [result_of (?a, ?b, ?c)] => change (result_of (a, b, c)) with a
    | |- context [table_of (?a, ?b, ?c)] => change (table_of (a, b, c)) with b
    | |- context [calls_of (?a, ?b, ?c)] => change (calls_of (a, b, c)) with c
    | H : context [result_of (?a, ?b, ?c)] |- _ =>
        change (result_of (a, b, c)) with a in H
    end.

(** ** The handler over a status store that can fail *)

(** [table.get_item] and [table.put_item] are calls to a remote service
    and stand unguarded inside the [try]: either can raise.  Here the
    handler is written once more, line for line, over such a store; with
    a store that answers every call it is the handler above. *)
Module Remote.

(** The calls of the store that raise, and with what: a row makes at most
    one [get_item] and one [put_item], so a call is told by the index of
    its row and its ItemID. *)
Record store_faults := mkfaults {
  get_raises : nat -> string -> option exn;
  put_raises : nat -> string -> option exn
}.

(** The store that answers every call. *)
Definition answers : store_faults :=
  mkfaults (fun _ _ => None) (fun _ _ => None).

Definition get_item (b : store_faults) (i : nat) (item_id : string)
  : M (option (gmap string string)) :=
  fun t =>
    match get_raises b i item_id with
    | Some e => (inl e, t, [])
    | None => (inr (t !! item_id), t, [])
    end.

Definition put_item (b : store_faults) (i : nat) (item_id status : string) : M unit :=
  fun t =>
    match put_raises b i item_id with
    | Some e => (inl e, t, [])
    | None =>
        (inr tt,
         <[item_id := {["ItemID" := item_id; "Status" := status]}]> t,
         [PutItem item_id status])
    end.

Definition process_row (b : store_faults) (today : PyDate.date)
    (hm : gmap string nat) (i : nat) (row : list string) : M unit :=
  let row_num := (i + 2)%nat in
  let item_name := cell hm row "ItemName" "" in
  let due_date_str := cell hm row "DueDate" "" in
  print (nl +:+ "--- Processing Row " +:+ pretty row_num +:+ ": " +:+ item_name +:+ " ---") ;;;
  if negb (PyStr.truthy item_name) || negb (PyStr.truthy due_date_str) then
    print ("Skipping row " +:+ pretty row_num +:+ " due to missing ItemName or DueDate.")
  else
    let item_id := item_id_of item_name due_date_str in
    print ("Generated ItemID: " +:+ item_id) ;;;
    response <- get_item b i item_id ;;
    let item_status := status_of response in
    print ("DynamoDB Status: " +:+ item_status) ;;;
    if String.eqb item_status "Handled" then
      print "Item is handled. Skipping."
    else
      (match response with
       | None =>
           print "New item. Adding to DynamoDB as Active." ;;;
           put_item b i item_id "Active"
       | Some _ => ret tt
       end) ;;;
      match PyDate.strptime_mdY due_date_str with
      | None =>
          print ("ERROR: Could not parse date '" +:+ due_date_str +:+
                 "'. Ensure format is MM/DD/YYYY.")
      | Some due_date =>
          let days_until_due := PyDate.days_between due_date today in
          print ("Parsed DueDate: " +:+ date_str due_date +:+
                 ", Days Until Due: " +:+ pretty days_until_due) ;;;
          if days_until_due <? 0 then
            let policy_no := cell hm row "Policy/Inv. No." "N/A" in
            let subject := overdue_subject item_name in
            let body := overdue_body due_date_str days_until_due policy_no in
            print "OVERDUE MATCH. Sending notification." ;;;
            send_telegram_alert (overdue_marker +:+ " " +:+ subject +:+ nl +:+ body) ;;;
            send_email_alert subject body
          else
            let advance_days_str := cell hm row "AdvanceDays" "" in
            advance_days_list <- lift (advance_days advance_days_str) ;;
            print ("Advance Days List to check against: " +:+ list_str advance_days_list) ;;;
            if mem days_until_due advance_days_list then
              print ("MATCH FOUND! Sending notification for " +:+
                     pretty days_until_due +:+ " days away.") ;;;
              let policy_no := cell hm row "Policy/Inv. No." "N/A" in
              let amount := cell hm row "Amount" "N/A" in
              let name_on_inv := cell hm row "Name on Inv." "N/A" in
              let place_branch := cell hm row "Place/Branch" "N/A" in
              let subject := reminder_subject item_name days_until_due in
              let body := reminder_body item_name due_date_str policy_no amount
                            name_on_inv place_branch in
              send_telegram_alert (reminder_marker +:+ " " +:+ subject) ;;;
              send_email_alert subject body
            else print "No reminder needed today."
      end.

Fixpoint process_rows (b : store_faults) (today : PyDate.date)
    (hm : gmap string nat) (i : nat) (rows : list (list string)) : M unit :=
  match rows with
  | [] => ret tt
  | row :: rest =>
      process_row b today hm i row ;;; process_rows b today hm (S i) rest
  end.

Definition pass (b : store_faults) (today : PyDate.date)
    (fetched : exn + list (list string)) : M response :=
  all_values <- lift fetched ;;
  match all_values with
  | [] => raise IndexError
  | headers :: reminders_as_lists =>
      print ("Found " +:+ pretty (length reminders_as_lists) +:+
             " records in the spreadsheet.") ;;;
      process_rows b today (header_map headers) 0 reminders_as_lists ;;;
      print (nl +:+ "Daily reminder check finished successfully.") ;;;
      ret success
  end.

Definition daily_reminder_handler (b : store_faults) (str_of : exn -> string)
    (today : PyDate.date) (fetched : exn + list (list string)) : M response :=
  print "Starting daily reminder check..." ;;;
  try_except (pass b today fetched)
    (fun e =>
       print ("An unhandled error occurred: " +:+ str_of e) ;;;
       send_telegram_alert (critical_marker +:+ " CRITICAL ERROR in Lambda: " +:+ str_of e) ;;;
       raise e).

End Remote.

(** ** The two senders and the second handler *)

Module Channel.

(** The settings read from the environment: [os.environ.get] gives
    [None] for a variable that is not set. *)
Record env := mkenv {
  TELEGRAM_BOT_TOKEN : option string;
  TELEGRAM_CHAT_ID : option string;
  FROM_EMAIL : option string;
  TO_EMAIL : option string
}.

(** [not v] for a setting: it is not set, or set to the empty string. *)
Definition unset (v : option string) : bool :=
  match v with
  | None => true
  | Some s => negb (PyStr.truthy s)
  end.

(** What reaches the outside: a printed line, a write to the status
    table, a POST of a JSON object, a call of the mail service. *)
Inductive action :=
  | Stdout (line : string)
  | TablePut (item_id status : string)
  | HttpPost (url : string) (json : list (string * string))
  | SesSendEmail (source : string) (to_addresses : list string)
      (subject body charset : string).

Record http_response := mkresponse {
  status_code : Z;
  reason : string;
  response_url : string
}.

(** What [requests.post] does: it answers, or it raises a
    [RequestException] with some text. *)
Inductive post_outcome :=
  | Responded (r : http_response)
  | RequestFailed (text : string).

(** [response.raise_for_status()]: the text of the [HTTPError] it raises
    for a status from 400 to 599, [None] when it returns. *)
Definition raise_for_status (r : http_response) : option string :=
  if (400 <=? status_code r) && (status_code r <? 500) then
    Some (pretty (status_code r) +:+ " Client Error: " +:+ reason r +:+
          " for url: " +:+ response_url r)
  else if (500 <=? status_code r) && (status_code r <? 600) then
    Some (pretty (status_code r) +:+ " Server Error: " +:+ reason r +:+
          " for url: " +:+ response_url r)
  else None.

(** [send_telegram_alert(message)]; [post] is the transport. *)
Definition send_telegram_alert (e : env)
    (post : string -> list (string * string) -> post_outcome)
    (message : string) : list action :=
  if unset (TELEGRAM_BOT_TOKEN e) || unset (TELEGRAM_CHAT_ID e) then
    [Stdout "Telegram environment variables not set. Skipping alert."]
  else
    let url := "https://api.telegram.org/bot" +:+
               default "" (TELEGRAM_BOT_TOKEN e) +:+ "/sendMessage" in
    let payload := [("chat_id", default "" (TELEGRAM_CHAT_ID e));
                    ("text", message);
                    ("parse_mode", "Markdown")] in
    Stdout "Sending Telegram alert..." ::
    HttpPost url payload ::
    match post url payload with
    | Responded r =>
        match raise_for_status r with
        | None => [Stdout "Telegram alert sent successfully."]
        | Some text => [Stdout ("Error sending Telegram alert: " +:+ text)]
        end
    | RequestFailed text => [Stdout ("Error sending Telegram alert: " +:+ text)]
    end.

(** [send_email_alert(subject, body)]; [ses] is the mail service, which
    returns ([None]) or raises an exception with some text. *)
Definition send_email_alert (e : env)
    (ses : string -> list string -> string -> string -> option string)
    (subject body : string) : list action :=
  if unset (FROM_EMAIL e) || unset (TO_EMAIL e) then
    [Stdout "Email environment variables not set. Skipping alert."]
  else
    let source := default "" (FROM_EMAIL e) in
    let to_addresses := [default "" (TO_EMAIL e)] in
    Stdout ("Sending email with subject: '" +:+ subject +:+ "'") ::
    SesSendEmail source to_addresses subject body "UTF-8" ::
    match ses source to_addresses subject body with
    | None => [Stdout "Email alert sent successfully."]
    | Some text => [Stdout ("Error sending email: " +:+ text)]
    end.

(** The transports as they answer the call made at each position of a
    run. *)
Record transports := mktransports {
  post_at : nat -> string -> list (string * string) -> post_outcome;
  ses_at : nat -> string -> list string -> string -> string -> option string
}.

(** What the calls of a run do to the outside, the call at position [n]
    first. *)
Fixpoint perform (e : env) (w : transports) (n : nat) (cs : list call)
  : list action :=
  match cs with
  | [] => []
  | c :: rest =>
      match c with
      | Print line => [Stdout line]
      | PutItem item_id status => [TablePut item_id status]
      | SendTelegram message => send_telegram_alert e (post_at w n) message
      | SendEmail subject body => send_email_alert e (ses_at w n) subject body
      end ++ perform e w (S n) rest
  end.

Definition is_post (a : action) : bool :=
  match a with HttpPost _ _ => true | _ => false end.

Definition is_mail (a : action) : bool :=
  match a with SesSendEmail _ _ _ _ _ => true | _ => false end.

Definition is_telegram (c : call) : bool :=
  match c with SendTelegram _ => true | _ => false end.

Definition is_email (c : call) : bool :=
  match c with SendEmail _ _ => true | _ => false end.

(** The chat messages and the mails that a list of calls asks for. *)
Definition telegram_messages (cs : list call) : list string :=
  omap (fun c => match c with SendTelegram m => Some m | _ => None end) cs.

Definition email_messages (cs : list call) : list (string * string) :=
  omap (fun c => match c with SendEmail s b => Some (s, b) | _ => None end) cs.

(** [action_handler(event, context)]: the line it prints and its
    answer, [{'statusCode': 200, 'body': json.dumps('Action received')}]. *)
Definition action_handler {E C : Type} (event : E) (context : C)
  : list action * (Z * string) :=
  ([Stdout "Action Handler function executed!"],
   (200, dquote +:+ "Action received" +:+ dquote)).

End Channel.

(** A name with no space and no hyphen in it. *)
Fixpoint plain (s : string) : bool :=
  match s with
  | EmptyString => true
  | String c s' => negb (Ascii.eqb c " ") && negb (Ascii.eqb c "-") && plain s'
  end.

(** Calendar order: the first date comes before the second. *)
Definition before (a b : PyDate.date) : Prop :=
  PyDate.year a < PyDate.year b \/
  (PyDate.year a = PyDate.year b /\
   (PyDate.month a < PyDate.month b \/
    (PyDate.month a = PyDate.month b /\ PyDate.day a < PyDate.day b))).

(** The advance days in the words of the specification: the cell is a
    comma-separated list of integers, an entry is trimmed, and an entry
    that is empty or is no integer contributes nothing. *)
Definition advance_days_spec (advance_days_str : string) : list Z :=
  omap (fun d => PyStr.int (PyStr.strip d)) (PyStr.split "," advance_days_str).

Definition car_insurance_blank_entry : list string :=
  ["Car Insurance"; "03/01/2025"; " 7 , ,3"; "P-1"; "120"].

(** A store that refuses the first [get_item] of a pass. *)
Definition throttled : Remote.store_faults :=
  Remote.mkfaults
    (fun i _ => match i with O => Some (ServiceError "throttled") | S _ => None end)
    (fun _ _ => None).

#[global] Instance call_eq_dec : EqDecision call.
Proof. solve_decision. Defined.

(** Whether the table holds an item of status Handled for an ItemID. *)
Definition is_handled (t : table_state) (k : string) : bool :=
  String.eqb (status_of (t !! k)) "Handled".

(** What a row comes to, told without the table: whether it raises, and
    the event it gives, from the row, the day and whether its item is
    Handled. *)
Definition row_verdict (today : PyDate.date) (hm : gmap string nat)
    (row : list string) (handled : bool) : (exn + unit) * list notification :=
  if negb (PyStr.truthy (name_of hm row)) || negb (PyStr.truthy (due_of hm row))
  then (inr tt, [])
  else if handled then (inr tt, [])
  else
    match PyDate.strptime_mdY (due_of hm row) with
    | None => (inr tt, [])
    | Some due_date =>
        let days_until_due := PyDate.days_between due_date today in
        if days_until_due <? 0 then (inr tt, [overdue_event hm row days_until_due])
        else
          match advance_days (cell hm row "AdvanceDays" "") with
          | inl e => (inl e, [])
          | inr l =>
              if mem days_until_due l
              then (inr tt, [due_soon_event hm row days_until_due])
              else (inr tt, [])
          end
    end.

(** The same for the rows of a sheet, in order, up to the first row that
    raises; [handled] tells the Handled ItemIDs at the start. *)
Fixpoint pass_verdict (today : PyDate.date) (hm : gmap string nat)
    (handled : string -> bool) (rows : list (list string))
  : (exn + unit) * list notification :=
  match rows with
  | [] => (inr tt, [])
  | row :: rest =>
      match row_verdict today hm row (handled (id_of hm row)) with
      | (inl e, events) => (inl e, events)
      | (inr _, events) =>
          ((pass_verdict today hm handled rest).1,
           events ++ (pass_verdict today hm handled rest).2)
      end
  end.

(** The sends that deliver a list of events, in order. *)
Definition deliveries (events : list notification) : list call :=
  concat (delivery <$> events).

Example strip_ex : PyStr.strip "  7 " = "7".
Proof. reflexivity. Qed.

Example split_ex : PyStr.split "," "7, 3,,1" = ["7"; " 3"; ""; "1"].
Proof. reflexivity. Qed.

Example int_ex :
  PyStr.int "7" = Some 7 /\ PyStr.int "-1_0" = Some (-10) /\
  PyStr.int "abc" = None /\ PyStr.int "1__0" = None /\ PyStr.int "" = None /\
  PyStr.int "3.5" = None /\ PyStr.int "+ 1" = None.
Proof. repeat split; reflexivity. Qed.

Example strptime_ex :
  PyDate.strptime_mdY "03/01/2025" = Some (PyDate.mkdate 2025 3 1) /\
  PyDate.strptime_mdY "3/1/2025" = Some (PyDate.mkdate 2025 3 1) /\
  PyDate.strptime_mdY "12/31/2025" = Some (PyDate.mkdate 2025 12 31) /\
  PyDate.strptime_mdY "02/30/2025" = None /\
  PyDate.strptime_mdY "2025-03-01" = None /\
  PyDate.strptime_mdY "03/01/25" = None /\
  PyDate.strptime_mdY "03/01/2025 " = None.
Proof. repeat split; reflexivity. Qed.

Example toordinal_ex :
  PyDate.toordinal (PyDate.mkdate 1 1 1) = 1 /\
  PyDate.toordinal (PyDate.mkdate 2025 3 1) = 739311.
Proof. split; reflexivity. Qed.

(** The scenarios A to E of the specification. *)

Example scenario_A :
  PyDate.days_between (PyDate.mkdate 2025 3 1) (PyDate.mkdate 2025 2 22) = 7 /\
  sends (calls_of (process_row (PyDate.mkdate 2025 2 22) (header_map sample_headers)
                     0 car_insurance ∅))
  = delivery (DueSoon "Car Insurance" "03/01/2025" 7 "P-1" "120" "N/A" "N/A").
Proof. split; vm_compute; reflexivity. Qed.

Example scenario_B :
  sends (calls_of (process_row (PyDate.mkdate 2025 3 5) (header_map sample_headers)
                     0 car_insurance ∅))
  = delivery (Overdue "Car Insurance" "03/01/2025" (-4) "P-1") /\
  overdue_body "03/01/2025" (-4) "P-1"
  = "This item was due on 03/01/2025 and is overdue by 4 days." +:+ nl +:+
    "Policy No: P-1".
Proof. split; vm_compute; reflexivity. Qed.

Example scenario_C :
  PyDate.days_between (PyDate.mkdate 2025 3 1) (PyDate.mkdate 2025 2 20) = 9 /\
  sends (calls_of (process_row (PyDate.mkdate 2025 2 20) (header_map sample_headers)
                     0 car_insurance ∅)) = [].
Proof. split; vm_compute; reflexivity. Qed.

Example scenario_D :
  sends (calls_of (process_row (PyDate.mkdate 2025 3 5) (header_map sample_headers)
                     0 car_insurance handled_table)) = [] /\
  puts (calls_of (process_row (PyDate.mkdate 2025 3 5) (header_map sample_headers)
                    0 car_insurance handled_table)) = [].
Proof. split; vm_compute; reflexivity. Qed.

Example scenario_E :
  process_row (PyDate.mkdate 2025 2 22) (header_map ["ItemName"; "AdvanceDays"])
    0 ["Car Insurance"; "7,3,1"] ∅
  = (inr tt, ∅,
     [opening 0 "Car Insurance";
      Print "Skipping row 2 due to missing ItemName or DueDate."]).
Proof. reflexivity. Qed.

(** ** Facts on the primitives *)

Lemma truthy_false (s : string) : PyStr.truthy s = false <-> s = "".
Proof. destruct s; simpl; split; congruence. Qed.

Lemma header_map_from_lookup (headers : list string) :
  forall (i : nat) (m : gmap string nat) (name : string) (k : nat),
    header_map_from i headers m !! name = Some k ->
    m !! name = Some k \/ (i <= k)%nat /\ headers !! (k - i)%nat = Some name.
Proof.
  induction headers as [|h hs IH]; intros i m name k Hk; simpl in Hk.
  - by left.
  - destruct (IH _ _ _ _ Hk) as [Hm | [Hle Hhs]].
    + destruct (decide (h = name)) as [->|Hne].
      * rewrite lookup_insert_eq in Hm. injection Hm as <-.
        right. split; [lia|]. by rewrite Nat.sub_diag.
      * rewrite lookup_insert_ne in Hm by done. by left.
    + right. split; [lia|].
      replace (k - i)%nat with (S (k - S i)) by lia. done.
Qed.

(** A label is mapped to a column that carries it. *)
Lemma header_map_lookup (headers : list string) (name : string) (k : nat) :
  header_map headers !! name = Some k -> headers !! k = Some name.
Proof.
  intros Hk. destruct (header_map_from_lookup _ _ _ _ _ Hk) as [He | [_ Hh]].
  - by rewrite lookup_empty in He.
  - by rewrite Nat.sub_0_r in Hh.
Qed.

(** Two different labels are mapped to two different columns. *)
Lemma header_map_columns_differ (headers : list string) (n1 n2 : string) (k1 k2 : nat) :
  n1 <> n2 ->
  header_map headers !! n1 = Some k1 ->
  header_map headers !! n2 = Some k2 ->
  k1 <> k2.
Proof.
  intros Hne H1%header_map_lookup H2%header_map_lookup ->. congruence.
Qed.

(** Rewriting the cell of one column leaves the cells of the others. *)
Lemma cell_insert_other (headers row : list string) (n name default v : string) (j : nat) :
  header_map headers !! n = Some j ->
  name <> n ->
  cell (header_map headers) (<[j := v]> row) name default
  = cell (header_map headers) row name default.
Proof.
  intros Hj Hne. unfold cell.
  destruct (header_map headers !! name) as [k|] eqn:Hk; [|done].
  assert (j <> k) as Hjk.
  { apply (header_map_columns_differ headers n name); auto. }
  by rewrite list_lookup_insert_ne.
Qed.

Lemma cell_missing_header (hm : gmap string nat) (row : list string) (name default : string) :
  hm !! name = None -> cell hm row name default = default.
Proof. intros H. unfold cell. by rewrite H. Qed.

Lemma cell_short_row (hm : gmap string nat) (row : list string) (name default : string) (j : nat) :
  hm !! name = Some j -> (length row <= j)%nat -> cell hm row name default = default.
Proof.
  intros H Hlen. unfold cell. rewrite H.
  by rewrite (proj2 (lookup_ge_None row j) Hlen).
Qed.

(** ** The branches of the loop body *)

Section Row.

Variables (today : PyDate.date) (hm : gmap string nat) (i : nat).
Variables (row : list string) (t : table_state).

Local Abbreviation item_name := (cell hm row "ItemName" "").
Local Abbreviation due_date_str := (cell hm row "DueDate" "").
Local Abbreviation item_id := (item_id_of item_name due_date_str).
Local Abbreviation policy_no := (cell hm row "Policy/Inv. No." "N/A").

Lemma process_row_skipped :
  PyStr.truthy item_name = false \/ PyStr.truthy due_date_str = false ->
  process_row today hm i row t
  = (inr tt, t,
     [opening i item_name;
      Print ("Skipping row " +:+ pretty (i + 2)%nat +:+
             " due to missing ItemName or DueDate.")]).
Proof.
  intros H. unfold process_row, bind, print.
  assert (negb (PyStr.truthy item_name) || negb (PyStr.truthy due_date_str) = true) as ->.
  { destruct H as [-> | ->]; [done | by rewrite orb_true_r]. }
  reflexivity.
Qed.

Hypothesis Hname : PyStr.truthy item_name = true.
Hypothesis Hdue : PyStr.truthy due_date_str = true.

Lemma process_row_handled :
  String.eqb (status_of (t !! item_id)) "Handled" = true ->
  process_row today hm i row t
  = (inr tt, t,
     opening i item_name :: looked_up t item_id ++
     [Print "Item is handled. Skipping."]).
Proof.
  intros H. run_row. rewrite Hname, Hdue. cbn [negb orb]. run_row. rewrite H. reflexivity.
Qed.

Hypothesis Hactive : String.eqb (status_of (t !! item_id)) "Handled" = false.

Lemma process_row_bad_date :
  PyDate.strptime_mdY due_date_str = None ->
  process_row today hm i row t
  = (inr tt, registered t item_id,
     opening i item_name :: looked_up t item_id ++ first_seen t item_id ++
     [Print ("ERROR: Could not parse date '" +:+ due_date_str +:+
             "'. Ensure format is MM/DD/YYYY.")]).
Proof.
  intros H. run_row. rewrite Hname, Hdue. cbn [negb orb]. run_row. rewrite Hactive, H.
  unfold registered, first_seen, looked_up.
  destruct (t !! item_id); reflexivity.
Qed.

Variable due_date : PyDate.date.
Hypothesis Hparse : PyDate.strptime_mdY due_date_str = Some due_date.

Local Abbreviation days_until_due := (PyDate.days_between due_date today).
Local Abbreviation parsed_line :=
  (Print ("Parsed DueDate: " +:+ date_str due_date +:+
          ", Days Until Due: " +:+ pretty days_until_due)).

Lemma process_row_overdue :
  days_until_due < 0 ->
  process_row today hm i row t
  = (inr tt, registered t item_id,
     opening i item_name :: looked_up t item_id ++ first_seen t item_id ++
     [parsed_line; Print "OVERDUE MATCH. Sending notification."] ++
     delivery (Overdue item_name due_date_str days_until_due policy_no)).
Proof.
  intros Hlt%Z.ltb_lt. run_row. rewrite Hname, Hdue. cbn [negb orb]. run_row.
  rewrite Hactive, Hparse, Hlt.
  unfold registered, first_seen, looked_up.
  destruct (t !! item_id); reflexivity.
Qed.

Hypothesis Hnot_overdue : 0 <= days_until_due.

Local Abbreviation advance_days_str := (cell hm row "AdvanceDays" "").

Lemma process_row_due_raises (e : exn) :
  advance_days advance_days_str = inl e ->
  process_row today hm i row t
  = (inl e, registered t item_id,
     opening i item_name :: looked_up t item_id ++ first_seen t item_id ++
     [parsed_line]).
Proof.
  intros He. apply Z.ltb_ge in Hnot_overdue as Hge.
  run_row. rewrite Hname, Hdue. cbn [negb orb]. run_row.
  rewrite Hactive, Hparse, Hge, He.
  unfold registered, first_seen, looked_up.
  destruct (t !! item_id); reflexivity.
Qed.

Lemma process_row_due_soon (l : list Z) :
  advance_days advance_days_str = inr l ->
  mem days_until_due l = true ->
  process_row today hm i row t
  = (inr tt, registered t item_id,
     opening i item_name :: looked_up t item_id ++ first_seen t item_id ++
     [parsed_line;
      Print ("Advance Days List to check against: " +:+ list_str l);
      Print ("MATCH FOUND! Sending notification for " +:+
             pretty days_until_due +:+ " days away.")] ++
     delivery (DueSoon item_name due_date_str days_until_due policy_no
                 (cell hm row "Amount" "N/A") (cell hm row "Name on Inv." "N/A")
                 (cell hm row "Place/Branch" "N/A"))).
Proof.
  intros Hl Hmem. apply Z.ltb_ge in Hnot_overdue as Hge.
  run_row. rewrite Hname, Hdue. cbn [negb orb]. run_row.
  rewrite Hactive, Hparse, Hge, Hl. run_row. rewrite Hmem.
  unfold registered, first_seen, looked_up.
  destruct (t !! item_id); reflexivity.
Qed.

Lemma process_row_no_reminder (l : list Z) :
  advance_days advance_days_str = inr l ->
  mem days_until_due l = false ->
  process_row today hm i row t
  = (inr tt, registered t item_id,
     opening i item_name :: looked_up t item_id ++ first_seen t item_id ++
     [parsed_line;
      Print ("Advance Days List to check against: " +:+ list_str l);
      Print "No reminder needed today."]).
Proof.
  intros Hl Hmem. apply Z.ltb_ge in Hnot_overdue as Hge.
  run_row. rewrite Hname, Hdue. cbn [negb orb]. run_row.
  rewrite Hactive, Hparse, Hge, Hl. run_row. rewrite Hmem.
  unfold registered, first_seen, looked_up.
  destruct (t !! item_id); reflexivity.
Qed.

End Row.

(** ** Calls of a row, sorted by kind *)

Lemma sends_app (c1 c2 : list call) : sends (c1 ++ c2) = sends c1 ++ sends c2.
Proof. apply List.filter_app. Qed.

Lemma puts_app (c1 c2 : list call) : puts (c1 ++ c2) = puts c1 ++ puts c2.
Proof. apply List.filter_app. Qed.

Lemma puts_of_app (k : string) (c1 c2 : list call) :
  puts_of k (c1 ++ c2) = puts_of k c1 ++ puts_of k c2.
Proof. apply List.filter_app. Qed.

Lemma puts_of_puts (k : string) (cs : list call) : puts_of k (puts cs) = puts_of k cs.
Proof.
  induction cs as [|c cs IH]; [done|].
  destruct c; simpl; try done.
  destruct (String.eqb item_id k); simpl; by rewrite IH.
Qed.

Lemma sends_looked_up (t : table_state) (k : string) : sends (looked_up t k) = [].
Proof. reflexivity. Qed.

Lemma puts_looked_up (t : table_state) (k : string) : puts (looked_up t k) = [].
Proof. reflexivity. Qed.

Lemma sends_first_seen (t : table_state) (k : string) : sends (first_seen t k) = [].
Proof. unfold first_seen. by destruct (t !! k). Qed.

Lemma puts_first_seen (t : table_state) (k : string) :
  puts (first_seen t k)
  = match t !! k with None => [PutItem k "Active"] | Some _ => [] end.
Proof. unfold first_seen. by destruct (t !! k). Qed.

Lemma sends_delivery (n : notification) : sends (delivery n) = delivery n.
Proof. by destruct n. Qed.

Lemma puts_delivery (n : notification) : puts (delivery n) = [].
Proof. by destruct n. Qed.

Lemma delivery_not_nil (n : notification) : delivery n <> [].
Proof. by destruct n. Qed.

Create Rewrite HintDb calls.
#[local] Hint Rewrite sends_app puts_app sends_looked_up puts_looked_up
  sends_first_seen puts_first_seen sends_delivery puts_delivery : calls.

(** Splits on the branch the body takes for a row and rewrites the run of
    the row with the equation of that branch. *)
Ltac row_cases today hm i row t :=
  let Hname := fresh "Hname" in
  let Hdue := fresh "Hdue" in
  let Hst := fresh "Hst" in
  let Hp := fresh "Hparse" in
  let Ha := fresh "Hadv" in
  let Hm := fresh "Hmem" in
  let Hd := fresh "Hdays" in
  let d := fresh "due_date" in
  let e := fresh "e" in
  let l := fresh "l" in
  destruct (PyStr.truthy (cell hm row "ItemName" "")) eqn:Hname;
    [ | rewrite (process_row_skipped today hm i row t) by (by left) ];
    [ destruct (PyStr.truthy (cell hm row "DueDate" "")) eqn:Hdue;
      [ | rewrite (process_row_skipped today hm i row t) by (by right) ] | ];
    [ destruct (String.eqb
        (status_of (t !! item_id_of (cell hm row "ItemName" "") (cell hm row "DueDate" "")))
        "Handled") eqn:Hst;
      [ rewrite (process_row_handled today hm i row t Hname Hdue Hst) | ] | | ];
    [ | destruct (PyDate.strptime_mdY (cell hm row "DueDate" "")) as [d|] eqn:Hp;
        [ | rewrite (process_row_bad_date today hm i row t Hname Hdue Hst Hp) ] | | ];
    [ | destruct (Z_lt_le_dec (PyDate.days_between d today) 0) as [Hd|Hd];
        [ rewrite (process_row_overdue today hm i row t Hname Hdue Hst d Hp Hd) | ] | | | ];
    [ | | destruct (advance_days (cell hm row "AdvanceDays" "")) as [e|l] eqn:Ha;
          [ rewrite (process_row_due_raises today hm i row t Hname Hdue Hst d Hp Hd e Ha) | ]
      | | | ];
    [ | | | destruct (mem (PyDate.days_between d today) l) eqn:Hm;
            [ rewrite (process_row_due_soon today hm i row t Hname Hdue Hst d Hp Hd l Ha Hm)
            | rewrite (process_row_no_reminder today hm i row t Hname Hdue Hst d Hp Hd l Ha Hm) ]
      | | | ].

(** The table after a row is the table before it or the table with the
    row's item registered, and the writes are those of the registration. *)
Lemma process_row_store (today : PyDate.date) (hm : gmap string nat) (i : nat)
    (row : list string) (t : table_state) :
  let r := process_row today hm i row t in
  let k := item_id_of (cell hm row "ItemName" "") (cell hm row "DueDate" "") in
  (table_of r = t /\ puts (calls_of r) = []) \/
  (table_of r = registered t k /\ puts (calls_of r) = puts (first_seen t k)).
Proof.
  cbv zeta. row_cases today hm i row t; unfold table_of, calls_of; simpl.
  all: try (left; split; reflexivity).
  all: right; split; [reflexivity|].
  all: change (?a :: ?l) with ([a] ++ l) at 1.
  all: autorewrite with calls; simpl; by rewrite ?app_nil_r.
Qed.

(** ** The status table along a pass *)

Section Table.

Variables (today : PyDate.date) (hm : gmap string nat).

Lemma status_handled_is_stored (t : table_state) (k : string) :
  String.eqb (status_of (t !! k)) "Handled" = true -> is_Some (t !! k).
Proof. destruct (t !! k); [eauto | done]. Qed.

(** A row never removes or changes a stored item. *)
Lemma process_row_keeps (i : nat) (row : list string) (t : table_state)
    (k : string) (v : gmap string string) :
  t !! k = Some v -> table_of (process_row today hm i row t) !! k = Some v.
Proof.
  intros Hk.
  destruct (process_row_store today hm i row t) as [[-> _] | [-> _]]; [done|].
  unfold registered.
  destruct (t !! item_id_of _ _) eqn:Hid; [done|].
  rewrite lookup_insert_ne; [done | congruence].
Qed.

(** A row writes under an ItemID exactly when the table had no item for
    it before the row and has one after it. *)
Lemma process_row_puts_of (i : nat) (row : list string) (t : table_state) (k : string) :
  puts_of k (calls_of (process_row today hm i row t))
  = match t !! k, table_of (process_row today hm i row t) !! k with
    | None, Some _ => [PutItem k "Active"]
    | _, _ => []
    end.
Proof.
  rewrite <- puts_of_puts.
  destruct (process_row_store today hm i row t) as [[-> ->] | [-> ->]].
  { simpl. by destruct (t !! k). }
  rewrite puts_first_seen. unfold registered.
  destruct (t !! item_id_of _ _) eqn:Hid.
  { simpl. by destruct (t !! k). }
  unfold puts_of. simpl.
  destruct (String.eqb_spec
              (item_id_of (cell hm row "ItemName" "") (cell hm row "DueDate" "")) k)
    as [<- | Hne].
  - by rewrite Hid, lookup_insert_eq.
  - rewrite lookup_insert_ne by done. by destruct (t !! k).
Qed.

(** A row with a name and a due date leaves an item for its ItemID. *)
Lemma process_row_registers (i : nat) (row : list string) (t : table_state) :
  PyStr.truthy (cell hm row "ItemName" "") = true ->
  PyStr.truthy (cell hm row "DueDate" "") = true ->
  is_Some (table_of (process_row today hm i row t)
             !! item_id_of (cell hm row "ItemName" "") (cell hm row "DueDate" "")).
Proof.
  intros Hn Hd.
  assert (forall t' : table_state,
             is_Some (registered t' (item_id_of (cell hm row "ItemName" "")
                                       (cell hm row "DueDate" ""))
                        !! item_id_of (cell hm row "ItemName" "")
                             (cell hm row "DueDate" ""))) as Hreg.
  { intros t'. unfold registered.
    destruct (t' !! item_id_of _ _) eqn:E; [by rewrite E|].
    by rewrite lookup_insert_eq. }
  row_cases today hm i row t; try discriminate; unfold table_of; simpl;
    try apply Hreg.
  by apply status_handled_is_stored.
Qed.

Lemma process_rows_cons (i : nat) (row : list string) (rest : list (list string))
    (t : table_state) :
  process_rows today hm i (row :: rest) t
  = match result_of (process_row today hm i row t) with
    | inl e =>
        (inl e, table_of (process_row today hm i row t),
         calls_of (process_row today hm i row t))
    | inr _ =>
        let r := process_rows today hm (S i) rest
                   (table_of (process_row today hm i row t)) in
        (result_of r, table_of r,
         calls_of (process_row today hm i row t) ++ calls_of r)
    end.
Proof.
  simpl. unfold bind, result_of, table_of, calls_of.
  destruct (process_row today hm i row t) as [[[e|[]] t1] c1]; simpl; [done|].
  by destruct (process_rows today hm (S i) rest t1) as [[r t2] c2].
Qed.

Lemma process_rows_keeps (rows : list (list string)) :
  forall (i : nat) (t : table_state) (k : string) (v : gmap string string),
    t !! k = Some v -> table_of (process_rows today hm i rows t) !! k = Some v.
Proof.
  induction rows as [|row rest IH]; intros i t k v Hk; [done|].
  rewrite process_rows_cons.
  destruct (result_of (process_row today hm i row t)); cbv zeta; read_outcome.
  - by apply process_row_keeps.
  - by apply IH, process_row_keeps.
Qed.

Lemma process_rows_puts_of (rows : list (list string)) :
  forall (i : nat) (t : table_state) (k : string),
    puts_of k (calls_of (process_rows today hm i rows t))
    = match t !! k, table_of (process_rows today hm i rows t) !! k with
      | None, Some _ => [PutItem k "Active"]
      | _, _ => []
      end.
Proof.
  induction rows as [|row rest IH]; intros i t k.
  { unfold calls_of, table_of. simpl. by destruct (t !! k). }
  rewrite process_rows_cons.
  pose proof (process_row_puts_of i row t k) as Hrow.
  destruct (result_of (process_row today hm i row t)); cbv zeta; read_outcome;
    [exact Hrow|].
  rewrite puts_of_app, Hrow, IH.
  destruct (t !! k) eqn:Hk.
  - by rewrite (process_row_keeps i row t k _ Hk).
  - destruct (table_of (process_row today hm i row t) !! k) eqn:Hk1; [|done].
    by rewrite (process_rows_keeps rest (S i) _ k _ Hk1).
Qed.

(** After a pass that went through, every row with a name and a due
    date has an item in the table. *)
Lemma process_rows_registers (rows : list (list string)) :
  forall (i : nat) (t : table_state) (row : list string),
    result_of (process_rows today hm i rows t) = inr tt ->
    row ∈ rows ->
    PyStr.truthy (cell hm row "ItemName" "") = true ->
    PyStr.truthy (cell hm row "DueDate" "") = true ->
    is_Some (table_of (process_rows today hm i rows t)
               !! item_id_of (cell hm row "ItemName" "") (cell hm row "DueDate" "")).
Proof.
  induction rows as [|row0 rest IH]; intros i t row Hres Hin Hn Hd.
  { by apply elem_of_nil in Hin. }
  rewrite process_rows_cons in Hres |- *.
  destruct (result_of (process_row today hm i row0 t)) as [e|[]];
    cbv zeta in Hres |- *; read_outcome; [done|].
  apply elem_of_cons in Hin as [-> | Hin].
  - destruct (process_row_registers i row0 t Hn Hd) as [v Hv].
    rewrite (process_rows_keeps rest (S i) _ _ _ Hv). eauto.
  - by apply IH.
Qed.

End Table.

(** ** Overdue and due-soon rows *)

(** C1. A valid row (name and due date present, item not Handled, due
    date readable) whose due date is past gives exactly the two sends of
    one Overdue event and returns normally; whatever is written in the
    advance-days cell, also something that is no number, the run of the
    row is the same, so the advance days are not looked at. *)
Theorem overdue_row_one_event (today : PyDate.date) (headers : list string)
    (i : nat) (row : list string) (t : table_state) (due_date : PyDate.date) :
  PyStr.truthy (name_of (header_map headers) row) = true ->
  PyStr.truthy (due_of (header_map headers) row) = true ->
  String.eqb (status_of (t !! id_of (header_map headers) row)) "Handled" = false ->
  PyDate.strptime_mdY (due_of (header_map headers) row) = Some due_date ->
  PyDate.days_between due_date today < 0 ->
  result_of (process_row today (header_map headers) i row t) = inr tt /\
  sends (calls_of (process_row today (header_map headers) i row t))
  = delivery (overdue_event (header_map headers) row
                (PyDate.days_between due_date today)) /\
  forall (j : nat) (v : string),
    header_map headers !! "AdvanceDays" = Some j ->
    process_row today (header_map headers) i (<[j := v]> row) t
    = process_row today (header_map headers) i row t.
Proof.
  intros Hname Hdue Hst Hparse Hdays.
  pose proof (process_row_overdue today _ i row t Hname Hdue Hst due_date Hparse Hdays)
    as Hrun.
  split; [by rewrite Hrun|]. split.
  - rewrite Hrun. read_outcome.
    change (?a :: ?l) with ([a] ++ l) at 1.
    autorewrite with calls. reflexivity.
  - intros j v Hj.
    assert (forall name default : string,
               name <> "AdvanceDays" ->
               cell (header_map headers) (<[j := v]> row) name default
               = cell (header_map headers) row name default) as Hcell.
    { intros name default Hne. by apply cell_insert_other with (n := "AdvanceDays"). }
    etransitivity.
    { apply process_row_overdue with (due_date := due_date);
        rewrite ?Hcell by done; assumption. }
    rewrite !Hcell by done. by rewrite Hrun.
Qed.

Lemma overdue_row_one_event_witness :
  sends (calls_of (process_row (PyDate.mkdate 2025 3 5) (header_map sample_headers)
                     0 car_insurance_malformed ∅))
  = delivery (Overdue "Car Insurance" "03/01/2025" (-4) "P-1").
Proof.
  exact (proj1 (proj2
    (overdue_row_one_event (PyDate.mkdate 2025 3 5) sample_headers 0
       car_insurance_malformed ∅ (PyDate.mkdate 2025 3 1)
       eq_refl eq_refl eq_refl eq_refl eq_refl))).
Defined.

(** Where the row reaches the advance days: the sends are those of a
    DueSoon event exactly when the whole cell parses and the list holds
    the number of days left; they are empty otherwise, also when [int]
    raises on an entry. *)
Lemma due_soon_iff_member (today : PyDate.date) (hm : gmap string nat)
    (i : nat) (row : list string) (t : table_state) (due_date : PyDate.date) :
  PyStr.truthy (name_of hm row) = true ->
  PyStr.truthy (due_of hm row) = true ->
  String.eqb (status_of (t !! id_of hm row)) "Handled" = false ->
  PyDate.strptime_mdY (due_of hm row) = Some due_date ->
  0 <= PyDate.days_between due_date today ->
  (sends (calls_of (process_row today hm i row t))
   = delivery (due_soon_event hm row (PyDate.days_between due_date today))
   <-> exists l : list Z,
         advance_days (cell hm row "AdvanceDays" "") = inr l /\
         PyDate.days_between due_date today ∈ l) /\
  (sends (calls_of (process_row today hm i row t))
   = delivery (due_soon_event hm row (PyDate.days_between due_date today))
   \/ sends (calls_of (process_row today hm i row t)) = []) /\
  (PyDate.days_between due_date today = 0 ->
   ~ (exists l : list Z,
         advance_days (cell hm row "AdvanceDays" "") = inr l /\ 0 ∈ l) ->
   sends (calls_of (process_row today hm i row t)) = []).
Proof.
  intros Hname Hdue Hst Hparse Hdays.
  assert (sends (calls_of (process_row today hm i row t))
          = match advance_days (cell hm row "AdvanceDays" "") with
            | inl _ => []
            | inr l =>
                if mem (PyDate.days_between due_date today) l
                then delivery (due_soon_event hm row (PyDate.days_between due_date today))
                else []
            end) as Hsends.
  { destruct (advance_days (cell hm row "AdvanceDays" "")) as [e|l] eqn:Hadv.
    - rewrite (process_row_due_raises today hm i row t Hname Hdue Hst due_date
                 Hparse Hdays e Hadv).
      read_outcome. change (?a :: ?l) with ([a] ++ l) at 1.
      autorewrite with calls. reflexivity.
    - destruct (mem (PyDate.days_between due_date today) l) eqn:Hmem.
      + rewrite (process_row_due_soon today hm i row t Hname Hdue Hst due_date
                   Hparse Hdays l Hadv Hmem).
        read_outcome. change (?a :: ?l) with ([a] ++ l) at 1.
        autorewrite with calls. reflexivity.
      + rewrite (process_row_no_reminder today hm i row t Hname Hdue Hst due_date
                   Hparse Hdays l Hadv Hmem).
        read_outcome. change (?a :: ?l) with ([a] ++ l) at 1.
        autorewrite with calls. reflexivity. }
  rewrite Hsends.
  destruct (advance_days (cell hm row "AdvanceDays" "")) as [e|l] eqn:Hadv.
  - repeat split.
    + intros H. by destruct (delivery_not_nil _ (eq_sym H)).
    + by intros (l & Hl & _).
    + by right.
  - unfold mem. repeat split.
    + case_bool_decide as Hin; [eauto|].
      intros H. by destruct (delivery_not_nil _ (eq_sym H)).
    + intros (l' & [= <-] & Hin). by rewrite bool_decide_eq_true_2.
    + case_bool_decide; [by left | by right].
    + intros Hzero Hnone. case_bool_decide as Hin; [|done].
      destruct Hnone. exists l. split; [done|]. by rewrite <- Hzero.
Qed.

(** ** Handled items and first-seen registration *)

Lemma status_of_handled (item : gmap string string) :
  item !! "Status" = Some "Handled" -> status_of (Some item) = "Handled".
Proof. intros H. unfold status_of. simpl. by rewrite H. Qed.

(** A row whose item is Handled leaves the table alone and makes neither
    a send nor a write. *)
Lemma handled_row (today : PyDate.date) (hm : gmap string nat) (i : nat)
    (row : list string) (t : table_state) (item : gmap string string) :
  t !! id_of hm row = Some item ->
  item !! "Status" = Some "Handled" ->
  result_of (process_row today hm i row t) = inr tt /\
  table_of (process_row today hm i row t) = t /\
  sends (calls_of (process_row today hm i row t)) = [] /\
  puts (calls_of (process_row today hm i row t)) = [].
Proof.
  intros Hitem Hst%status_of_handled.
  destruct (PyStr.truthy (name_of hm row)) eqn:Hname;
    [destruct (PyStr.truthy (due_of hm row)) eqn:Hdue|].
  - rewrite (process_row_handled today hm i row t Hname Hdue).
    + done.
    + by rewrite Hitem, Hst.
  - by rewrite (process_row_skipped today hm i row t) by (by right).
  - by rewrite (process_row_skipped today hm i row t) by (by left).
Qed.

(** C3. A row whose ItemID is stored with status Handled returns
    normally with no send and no write, whatever its due date, and leaves
    the table as it was; and over a whole pass that starts from such a
    table no write is made for that ItemID and its item stays as stored. *)
Theorem handled_item_is_silent (today : PyDate.date) (hm : gmap string nat)
    (i : nat) (row : list string) (t : table_state) (item : gmap string string) :
  t !! id_of hm row = Some item ->
  item !! "Status" = Some "Handled" ->
  (result_of (process_row today hm i row t) = inr tt /\
   table_of (process_row today hm i row t) = t /\
   sends (calls_of (process_row today hm i row t)) = [] /\
   puts (calls_of (process_row today hm i row t)) = []) /\
  forall (rows : list (list string)) (j : nat),
    puts_of (id_of hm row) (calls_of (process_rows today hm j rows t)) = [] /\
    table_of (process_rows today hm j rows t) !! id_of hm row = Some item.
Proof.
  intros Hitem Hst. split; [by apply handled_row with (item := item)|].
  intros rows j. split.
  - by rewrite process_rows_puts_of, Hitem.
  - by apply process_rows_keeps.
Qed.

Lemma handled_item_is_silent_witness :
  sends (calls_of (process_row (PyDate.mkdate 2025 2 22) (header_map sample_headers)
                     0 car_insurance handled_table)) = [] /\
  puts (calls_of (process_row (PyDate.mkdate 2025 2 22) (header_map sample_headers)
                    0 car_insurance handled_table)) = [].
Proof.
  exact (proj2 (proj2 (proj1
    (handled_item_is_silent (PyDate.mkdate 2025 2 22) (header_map sample_headers) 0
       car_insurance handled_table handled_item eq_refl eq_refl)))).
Defined.

(** C5. A row with a name and a due date whose ItemID has no item in the
    table (its status then reads Active, not Handled) makes exactly one
    write, of status Active under that ItemID, and leaves that item in the
    table, whether or not the due date can be read and whatever comes
    after; and in a pass that goes through all its rows the writes for
    the ItemID of such a row are that one write. *)
Theorem first_seen_row_is_registered (today : PyDate.date) (hm : gmap string nat)
    (i : nat) (row : list string) (t : table_state) :
  PyStr.truthy (name_of hm row) = true ->
  PyStr.truthy (due_of hm row) = true ->
  t !! id_of hm row = None ->
  (String.eqb (status_of (t !! id_of hm row)) "Handled" = false /\
   puts (calls_of (process_row today hm i row t)) = [PutItem (id_of hm row) "Active"] /\
   table_of (process_row today hm i row t) !! id_of hm row
   = Some {["ItemID" := id_of hm row; "Status" := "Active"]}) /\
  forall (rows : list (list string)) (j : nat),
    row ∈ rows ->
    result_of (process_rows today hm j rows t) = inr tt ->
    puts_of (id_of hm row) (calls_of (process_rows today hm j rows t))
    = [PutItem (id_of hm row) "Active"].
Proof.
  intros Hname Hdue Hnew.
  assert (String.eqb (status_of (t !! id_of hm row)) "Handled" = false) as Hst.
  { by rewrite Hnew. }
  split; [split; [done|]|].
  - destruct (process_row_store today hm i row t) as [[Ht _] | [Ht Hp]].
    + destruct (process_row_registers today hm i row t Hname Hdue) as [v Hv].
      rewrite Ht in Hv. congruence.
    + rewrite Ht, Hp, puts_first_seen. unfold registered. rewrite Hnew.
      by rewrite lookup_insert_eq.
  - intros rows j Hin Hres.
    destruct (process_rows_registers today hm rows j t row Hres Hin Hname Hdue)
      as [v Hv].
    by rewrite process_rows_puts_of, Hnew, Hv.
Qed.

Lemma first_seen_row_is_registered_witness :
  puts (calls_of (process_row (PyDate.mkdate 2025 2 22) (header_map sample_headers)
                    0 car_insurance_bad_date ∅))
  = [PutItem "Car-Insurance-2025-03-01" "Active"].
Proof.
  exact (proj1 (proj2 (proj1
    (first_seen_row_is_registered (PyDate.mkdate 2025 2 22)
       (header_map sample_headers) 0 car_insurance_bad_date ∅
       eq_refl eq_refl eq_refl)))).
Defined.

(** ** Rows that are skipped *)

Lemma process_rows_cons_returns (today : PyDate.date) (hm : gmap string nat)
    (i : nat) (row : list string) (rest : list (list string)) (t : table_state) :
  result_of (process_row today hm i row t) = inr tt ->
  process_rows today hm i (row :: rest) t
  = (result_of (process_rows today hm (S i) rest (table_of (process_row today hm i row t))),
     table_of (process_rows today hm (S i) rest (table_of (process_row today hm i row t))),
     calls_of (process_row today hm i row t) ++
     calls_of (process_rows today hm (S i) rest (table_of (process_row today hm i row t)))).
Proof. intros H. by rewrite process_rows_cons, H. Qed.

(** C6. A row whose due-date string is not empty and is no month/day/year
    date returns normally, makes no send and ends on a printed diagnostic
    (the date error when the row has a name and is not Handled); the rows
    after it are then processed from the table it leaves. *)
Theorem unreadable_due_date_skips_row (today : PyDate.date) (hm : gmap string nat)
    (i : nat) (row : list string) (t : table_state) :
  PyStr.truthy (due_of hm row) = true ->
  PyDate.strptime_mdY (due_of hm row) = None ->
  result_of (process_row today hm i row t) = inr tt /\
  sends (calls_of (process_row today hm i row t)) = [] /\
  last (calls_of (process_row today hm i row t))
  = Some (Print
      (if negb (PyStr.truthy (name_of hm row)) then
         "Skipping row " +:+ pretty (i + 2)%nat +:+ " due to missing ItemName or DueDate."
       else if String.eqb (status_of (t !! id_of hm row)) "Handled" then
         "Item is handled. Skipping."
       else
         "ERROR: Could not parse date '" +:+ due_of hm row +:+
         "'. Ensure format is MM/DD/YYYY.")) /\
  forall rest : list (list string),
    process_rows today hm i (row :: rest) t
    = (result_of (process_rows today hm (S i) rest (table_of (process_row today hm i row t))),
       table_of (process_rows today hm (S i) rest (table_of (process_row today hm i row t))),
       calls_of (process_row today hm i row t) ++
       calls_of (process_rows today hm (S i) rest (table_of (process_row today hm i row t)))).
Proof.
  intros Hdue Hparse.
  assert (result_of (process_row today hm i row t) = inr tt /\
          sends (calls_of (process_row today hm i row t)) = [] /\
          last (calls_of (process_row today hm i row t))
          = Some (Print
              (if negb (PyStr.truthy (name_of hm row)) then
                 "Skipping row " +:+ pretty (i + 2)%nat +:+
                 " due to missing ItemName or DueDate."
               else if String.eqb (status_of (t !! id_of hm row)) "Handled" then
                 "Item is handled. Skipping."
               else
                 "ERROR: Could not parse date '" +:+ due_of hm row +:+
                 "'. Ensure format is MM/DD/YYYY."))) as (Hres & Hsends & Hlast).
  { destruct (PyStr.truthy (name_of hm row)) eqn:Hname.
    - destruct (String.eqb (status_of (t !! id_of hm row)) "Handled") eqn:Hst.
      + by rewrite (process_row_handled today hm i row t Hname Hdue Hst).
      + rewrite (process_row_bad_date today hm i row t Hname Hdue Hst Hparse).
        read_outcome. repeat split.
        * change (?a :: ?l) with ([a] ++ l) at 1.
          autorewrite with calls. reflexivity.
        * rewrite app_comm_cons, !app_assoc. apply last_snoc.
    - by rewrite (process_row_skipped today hm i row t) by (by left). }
  repeat split; try done.
  intros rest. by apply process_rows_cons_returns.
Qed.

Lemma unreadable_due_date_skips_row_witness :
  result_of (process_row (PyDate.mkdate 2025 2 22) (header_map sample_headers)
               0 car_insurance_bad_date ∅) = inr tt /\
  sends (calls_of (process_row (PyDate.mkdate 2025 2 22) (header_map sample_headers)
                     0 car_insurance_bad_date ∅)) = [].
Proof.
  pose proof (unreadable_due_date_skips_row (PyDate.mkdate 2025 2 22)
                (header_map sample_headers) 0 car_insurance_bad_date ∅
                eq_refl eq_refl) as (Hres & Hsends & _).
  exact (conj Hres Hsends).
Defined.

(** C7. A cell read under a label that the header row lacks, or in a row
    too short for the column, is the empty string; and a row whose name or
    due-date string is empty returns normally after two printed lines,
    with no send, no write and the table as it was. *)
Theorem row_without_name_or_due_date_is_skipped (today : PyDate.date)
    (hm : gmap string nat) (i : nat) (row : list string) (t : table_state) :
  (forall name : string, hm !! name = None -> cell hm row name "" = "") /\
  (forall (name : string) (j : nat),
      hm !! name = Some j -> (length row <= j)%nat -> cell hm row name "" = "") /\
  (name_of hm row = "" \/ due_of hm row = "" ->
   process_row today hm i row t
   = (inr tt, t,
      [opening i (name_of hm row);
       Print ("Skipping row " +:+ pretty (i + 2)%nat +:+
              " due to missing ItemName or DueDate.")]) /\
   sends (calls_of (process_row today hm i row t)) = [] /\
   puts (calls_of (process_row today hm i row t)) = []).
Proof.
  split; [|split].
  - intros name. apply cell_missing_header.
  - intros name j. apply cell_short_row.
  - intros Hempty.
    assert (PyStr.truthy (name_of hm row) = false \/
            PyStr.truthy (due_of hm row) = false) as Hskip.
    { destruct Hempty as [H|H]; [left | right]; by apply truthy_false. }
    by rewrite (process_row_skipped today hm i row t Hskip).
Qed.

Lemma row_without_name_or_due_date_is_skipped_witness :
  process_row (PyDate.mkdate 2025 2 22) (header_map ["ItemName"; "AdvanceDays"])
    0 ["Car Insurance"; "7,3,1"] ∅
  = (inr tt, ∅,
     [opening 0 "Car Insurance";
      Print "Skipping row 2 due to missing ItemName or DueDate."]).
Proof.
  exact (proj1 (proj2 (proj2
    (row_without_name_or_due_date_is_skipped (PyDate.mkdate 2025 2 22)
       (header_map ["ItemName"; "AdvanceDays"]) 0 ["Car Insurance"; "7,3,1"] ∅))
    (or_intror eq_refl))).
Defined.

(** ** The handler around the pass *)

(** What [try ... except] does with a body that raises, and with one that
    returns, whatever the body is. *)
Lemma try_except_raised {A} (body : M A) (handler : exn -> M A) (t t1 : table_state)
    (e : exn) (c1 : list call) :
  body t = (inl e, t1, c1) ->
  try_except body handler t
  = (result_of (handler e t1), table_of (handler e t1), c1 ++ calls_of (handler e t1)).
Proof.
  intros H. unfold try_except. rewrite H.
  by destruct (handler e t1) as [[r t2] c2].
Qed.

Lemma try_except_returned {A} (body : M A) (handler : exn -> M A) (t t1 : table_state)
    (a : A) (c1 : list call) :
  body t = (inr a, t1, c1) -> try_except body handler t = (inr a, t1, c1).
Proof. intros H. unfold try_except. by rewrite H. Qed.

Lemma pass_returns_success (today : PyDate.date) (fetched : exn + list (list string))
    (t t1 : table_state) (r : response) (c : list call) :
  pass today fetched t = (inr r, t1, c) -> r = success.
Proof.
  unfold pass, bind, lift, ret, raise, print.
  destruct fetched as [e|[|headers rows]]; [done..|].
  destruct (process_rows today (header_map headers) 0 rows t) as [[[e|[]] t2] c2];
    [done|].
  by intros [= <- _ _].
Qed.

Lemma pass_raises_with_rows (today : PyDate.date) (headers : list string)
    (rows : list (list string)) (t : table_state) (e : exn) :
  result_of (process_rows today (header_map headers) 0 rows t) = inl e ->
  result_of (pass today (inr (headers :: rows)) t) = inl e.
Proof.
  unfold pass, bind, lift, ret, print.
  destruct (process_rows today (header_map headers) 0 rows t) as [[[e'|[]] t2] c2];
    [|done].
  by intros [= ->].
Qed.

(** C8. When the steps of the pass raise (the fetch of the credentials or
    of the sheet failed, the sheet has no header row, a row raised), the
    handler prints the error, sends one chat alert about it as its last
    call, and raises the same error; when they return, the handler
    returns their answer, which is the success answer with status 200,
    and adds no call. *)
Theorem handler_alerts_then_reraises (str_of : exn -> string) (today : PyDate.date)
    (fetched : exn + list (list string)) (t : table_state) :
  (forall (e : exn) (t1 : table_state) (c : list call),
      pass today fetched t = (inl e, t1, c) ->
      daily_reminder_handler str_of today fetched t
      = (inl e, t1,
         Print "Starting daily reminder check..." :: c ++
         [Print ("An unhandled error occurred: " +:+ str_of e);
          SendTelegram (critical_marker +:+ " CRITICAL ERROR in Lambda: " +:+ str_of e)])) /\
  (forall (r : response) (t1 : table_state) (c : list call),
      pass today fetched t = (inr r, t1, c) ->
      daily_reminder_handler str_of today fetched t
      = (inr r, t1, Print "Starting daily reminder check..." :: c) /\
      r = success /\ statusCode r = 200) /\
  (forall e : exn, fetched = inl e -> result_of (pass today fetched t) = inl e) /\
  (fetched = inr [] -> result_of (pass today fetched t) = inl IndexError) /\
  (forall (headers : list string) (rows : list (list string)) (e : exn),
      fetched = inr (headers :: rows) ->
      result_of (process_rows today (header_map headers) 0 rows t) = inl e ->
      result_of (pass today fetched t) = inl e).
Proof.
  repeat split.
  - intros e t1 c Hpass. unfold daily_reminder_handler, bind, print.
    by rewrite (try_except_raised _ _ t t1 e c Hpass).
  - unfold daily_reminder_handler, bind, print.
    by rewrite (try_except_returned _ _ t t1 r c H).
  - by apply pass_returns_success in H.
  - by apply pass_returns_success in H as ->.
  - by intros e ->.
  - by intros ->.
  - intros headers rows e -> Hrows. by apply pass_raises_with_rows.
Qed.

Lemma handler_alerts_then_reraises_witness :
  result_of (pass (PyDate.mkdate 2025 2 22) (inl (ServiceError "no credentials")) ∅)
  = inl (ServiceError "no credentials") /\
  daily_reminder_handler (fun _ => "failed") (PyDate.mkdate 2025 2 22)
    (inl (ServiceError "no credentials")) ∅
  = (inl (ServiceError "no credentials"), ∅,
     Print "Starting daily reminder check..." :: [] ++
     [Print ("An unhandled error occurred: " +:+ "failed");
      SendTelegram (critical_marker +:+ " CRITICAL ERROR in Lambda: " +:+ "failed")]).
Proof.
  pose proof (handler_alerts_then_reraises (fun _ => "failed") (PyDate.mkdate 2025 2 22)
                (inl (ServiceError "no credentials")) ∅) as (Hraise & _ & Hfetch & _).
  exact (conj (Hfetch _ eq_refl) (Hraise _ _ _ eq_refl)).
Defined.

(** ** The ItemID *)

(** C9. The ItemID is a function of the name and of the due-date string
    alone: it is the name with every space turned into a hyphen, then a
    hyphen, then the due-date string as it stands; equal inputs give
    equal ItemIDs. *)
Theorem item_id_derivation (item_name due_date_str : string) :
  item_id_of item_name due_date_str = item_id_spec item_name due_date_str /\
  forall item_name' due_date_str' : string,
    item_name' = item_name -> due_date_str' = due_date_str ->
    item_id_of item_name' due_date_str' = item_id_of item_name due_date_str.
Proof.
  split; [|by intros ? ? -> ->].
  unfold item_id_of, item_id_spec.
  induction item_name as [|c item_name IH].
  - simpl. by rewrite string_of_list_ascii_of_string.
  - simpl in IH |- *.
    change (String ?a ?s +:+ ?r) with (String a (s +:+ r)).
    rewrite IH. f_equal.
    destruct (Ascii.eqb_spec c " "); by case_decide.
Qed.

Lemma item_id_derivation_witness :
  item_id_of "Car Insurance" "03/01/2025" = "Car-Insurance-03/01/2025" /\
  item_id_of "Car Insurance" "03/01/2025" = item_id_of "Car Insurance" "03/01/2025".
Proof.
  pose proof (item_id_derivation "Car Insurance" "03/01/2025") as [Hspec Hsame].
  exact (conj Hspec (Hsame _ _ eq_refl eq_refl)).
Defined.

(** C10. The ItemID does not tell its inputs apart: the names
    "Car Insurance" and "Car-Insurance" are different and have the same
    ItemID with every due-date string.  Two rows that carry these names
    and one due date therefore read one item: when it is Handled neither
    row sends, and the second row never registers what the first one
    did. *)
Theorem item_id_not_injective :
  "Car Insurance" <> "Car-Insurance" /\
  (forall due_date_str : string,
      item_id_of "Car Insurance" due_date_str
      = item_id_of "Car-Insurance" due_date_str) /\
  forall (today : PyDate.date) (hm : gmap string nat) (i j : nat)
         (row1 row2 : list string) (t : table_state),
    name_of hm row1 = "Car Insurance" ->
    name_of hm row2 = "Car-Insurance" ->
    due_of hm row1 = due_of hm row2 ->
    id_of hm row1 = id_of hm row2 /\
    (forall item : gmap string string,
        t !! id_of hm row1 = Some item ->
        item !! "Status" = Some "Handled" ->
        sends (calls_of (process_row today hm i row1 t)) = [] /\
        sends (calls_of (process_row today hm j row2 t)) = []) /\
    (PyStr.truthy (due_of hm row1) = true ->
     puts (calls_of (process_row today hm j row2
                       (table_of (process_row today hm i row1 t)))) = []).
Proof.
  split; [done|]. split; [done|].
  intros today hm i j row1 row2 t Hn1 Hn2 Hdue.
  assert (id_of hm row1 = id_of hm row2) as Hid.
  { by rewrite Hn1, Hn2, Hdue. }
  split; [done|]. split.
  - intros item Hitem Hst. split.
    + by apply (handled_row today hm i row1 t item).
    + apply (handled_row today hm j row2 t item); [by rewrite <- Hid | done].
  - intros Htruthy.
    destruct (process_row_registers today hm i row1 t) as [v Hv];
      [by rewrite Hn1 | done |].
    rewrite Hid in Hv.
    destruct (process_row_store today hm j row2 (table_of (process_row today hm i row1 t)))
      as [[_ Hp] | [_ Hp]]; [done|].
    by rewrite Hp, puts_first_seen, Hv.
Qed.

Lemma item_id_not_injective_witness :
  sends (calls_of (process_row (PyDate.mkdate 2025 2 22) (header_map sample_headers)
                     0 car_insurance handled_table)) = [] /\
  sends (calls_of (process_row (PyDate.mkdate 2025 2 22) (header_map sample_headers)
                     1 car_insurance_hyphen handled_table)) = [].
Proof.
  pose proof (proj2 (proj2 item_id_not_injective) (PyDate.mkdate 2025 2 22)
                (header_map sample_headers) 0%nat 1%nat car_insurance
                car_insurance_hyphen handled_table eq_refl eq_refl eq_refl)
    as (_ & Hsilent & _).
  exact (Hsilent handled_item eq_refl eq_refl).
Defined.

(** ** A malformed advance-days entry *)

(** C4. On a sheet whose first row is due in seven days and has the
    advance days [7,abc], [int] raises on [abc]: the handler raises that
    error, its only send is the chat alert about it, and the row that
    follows, which alone would give a DueSoon event, is never reached. *)
Theorem malformed_advance_days_aborts_pass (str_of : exn -> string) :
  result_of (daily_reminder_handler str_of (PyDate.mkdate 2025 2 22)
               (inr [sample_headers; car_insurance_malformed; home_loan]) ∅)
  = inl (ValueError "abc") /\
  sends (calls_of (daily_reminder_handler str_of (PyDate.mkdate 2025 2 22)
                     (inr [sample_headers; car_insurance_malformed; home_loan]) ∅))
  = [SendTelegram (critical_marker +:+ " CRITICAL ERROR in Lambda: " +:+
                   str_of (ValueError "abc"))] /\
  puts (calls_of (daily_reminder_handler str_of (PyDate.mkdate 2025 2 22)
                    (inr [sample_headers; car_insurance_malformed; home_loan]) ∅))
  = [PutItem "Car-Insurance-03/01/2025" "Active"] /\
  sends (calls_of (daily_reminder_handler str_of (PyDate.mkdate 2025 2 22)
                     (inr [sample_headers; home_loan]) ∅))
  = delivery (DueSoon "Home Loan" "02/25/2025" 3 "L-9" "900" "N/A" "N/A").
Proof. repeat split; vm_compute; reflexivity. Qed.

(** ** Columns found by their label *)

Lemma header_map_from_snoc (headers : list string) (h : string) :
  forall (i : nat) (m : gmap string nat),
    header_map_from i (headers ++ [h]) m
    = <[h := (i + length headers)%nat]> (header_map_from i headers m).
Proof.
  induction headers as [|h0 hs IH]; intros i m; simpl.
  - by rewrite Nat.add_0_r.
  - rewrite IH. by replace (S i + length hs)%nat with (i + S (length hs))%nat by lia.
Qed.

Lemma header_map_snoc (headers : list string) (h : string) :
  header_map (headers ++ [h]) = <[h := length headers]> (header_map headers).
Proof. unfold header_map. by rewrite header_map_from_snoc. Qed.

Lemma header_map_columns (headers : list string) (name : string) :
  (forall k : nat,
      header_map headers !! name = Some k <->
      headers !! k = Some name /\
      forall k' : nat, (k < k')%nat -> headers !! k' <> Some name) /\
  (header_map headers !! name = None <-> name ∉ headers).
Proof.
  induction headers as [|h hs IH] using rev_ind.
  { split.
    - intros k. unfold header_map. simpl. rewrite lookup_empty. split; [done|].
      by intros [? _].
    - unfold header_map. simpl. rewrite lookup_empty. split; [|done].
      intros _. apply not_elem_of_nil. }
  destruct IH as [IHs IHn]. rewrite header_map_snoc. split.
  - intros k. destruct (decide (h = name)) as [->|Hne].
    + rewrite lookup_insert_eq. split.
      * intros [= <-]. split.
        -- by rewrite lookup_app_r, Nat.sub_diag by lia.
        -- intros k' Hlt. rewrite lookup_ge_None_2; [done|].
           rewrite length_app. simpl. lia.
      * intros [Hk Hlast]. f_equal.
        assert (k < length (hs ++ [name]))%nat as Hlen by by eapply lookup_lt_Some.
        rewrite length_app in Hlen. simpl in Hlen.
        destruct (decide (k = length hs)) as [|Hk']; [done|].
        destruct (Hlast (length hs)); [lia|].
        by rewrite lookup_app_r, Nat.sub_diag by lia.
    + rewrite lookup_insert_ne by done. rewrite IHs. split.
      * intros [Hk Hlast].
        assert (k < length hs)%nat as Hlen by by eapply lookup_lt_Some.
        split; [by rewrite lookup_app_l|].
        intros k' Hlt. destruct (decide (k' < length hs)%nat).
        -- rewrite lookup_app_l by done. by apply Hlast.
        -- destruct (decide (k' = length hs)) as [->|].
           ++ rewrite lookup_app_r, Nat.sub_diag by lia. simpl. congruence.
           ++ rewrite lookup_ge_None_2; [done|]. rewrite length_app. simpl. lia.
      * intros [Hk Hlast].
        assert (k < length (hs ++ [h]))%nat as Hlen by by eapply lookup_lt_Some.
        rewrite length_app in Hlen. simpl in Hlen.
        destruct (decide (k = length hs)) as [->|Hk'].
        { rewrite lookup_app_r, Nat.sub_diag in Hk by lia. simpl in Hk. congruence. }
        rewrite lookup_app_l in Hk by lia. split; [done|].
        intros k' Hlt Hk2. apply (Hlast k' Hlt).
        rewrite lookup_app_l; [done|]. by eapply lookup_lt_Some.
  - destruct (decide (h = name)) as [->|Hne].
    + rewrite lookup_insert_eq. split; [done|].
      intros Hnot. destruct Hnot. apply elem_of_app. right. by apply list_elem_of_singleton.
    + rewrite lookup_insert_ne by done. rewrite IHn.
      rewrite elem_of_app, list_elem_of_singleton. split.
      * intros Hhs [Hin | ->]; [by apply Hhs | done].
      * intros Hnot Hin. apply Hnot. by left.
Qed.

(** X1. The header map sends a label to the last column that carries it,
    and has no entry exactly for the labels that the header row lacks. *)
Theorem header_map_last_column (headers : list string) (name : string) :
  (forall k : nat,
      header_map headers !! name = Some k <->
      headers !! k = Some name /\
      forall k' : nat, (k < k')%nat -> headers !! k' <> Some name) /\
  (header_map headers !! name = None <-> name ∉ headers).
Proof. apply header_map_columns. Qed.

(** The run of a row reads the row through its cells only. *)
Lemma process_row_ext (today : PyDate.date) (hm hm' : gmap string nat) (i : nat)
    (row row' : list string) :
  (forall name default : string, cell hm' row' name default = cell hm row name default) ->
  process_row today hm' i row' = process_row today hm i row.
Proof. intros H. unfold process_row. by rewrite !H. Qed.

Lemma cell_as_map (cols : list (string * string)) (name dflt : string) :
  NoDup cols.*1 ->
  cell (header_map cols.*1) cols.*2 name dflt
  = default dflt ((list_to_map cols : gmap string string) !! name).
Proof.
  intros Hnodup. unfold cell.
  destruct (header_map cols.*1 !! name) as [k|] eqn:Hk.
  - apply header_map_lookup in Hk.
    apply list_lookup_fmap_Some in Hk as ([n v] & Hn & Hcol). simpl in Hn. subst n.
    rewrite list_lookup_fmap, Hcol. simpl.
    assert ((name, v) ∈ cols) as Hin by by eapply list_elem_of_lookup_2.
    by rewrite (elem_of_list_to_map_1 cols name v Hnodup Hin).
  - apply (proj2 (header_map_columns _ _)) in Hk.
    by rewrite (not_elem_of_list_to_map_1 cols name Hk).
Qed.

(** X2. On a sheet whose labels are all different, moving the columns
    around (the labels and the cells of a row alike) changes no cell read
    by label, and so changes nothing of what the row does. *)
Theorem reordered_columns_same_row (today : PyDate.date) (i : nat)
    (cols cols' : list (string * string)) :
  NoDup cols.*1 ->
  cols ≡ₚ cols' ->
  (forall name default : string,
      cell (header_map cols'.*1) cols'.*2 name default
      = cell (header_map cols.*1) cols.*2 name default) /\
  process_row today (header_map cols'.*1) i cols'.*2
  = process_row today (header_map cols.*1) i cols.*2.
Proof.
  intros Hnodup Hperm.
  assert (NoDup cols'.*1) as Hnodup' by by rewrite <- Hperm.
  assert (forall name default : string,
             cell (header_map cols'.*1) cols'.*2 name default
             = cell (header_map cols.*1) cols.*2 name default) as Hcell.
  { intros name default. rewrite !cell_as_map by done.
    by rewrite (list_to_map_proper (M := gmap string) cols cols' Hnodup Hperm). }
  split; [done|]. by apply process_row_ext.
Qed.

Lemma reordered_columns_same_row_witness :
  process_row (PyDate.mkdate 2025 2 22)
    (header_map ["DueDate"; "AdvanceDays"; "ItemName"]) 0
    ["03/01/2025"; "7,3,1"; "Car Insurance"]
  = process_row (PyDate.mkdate 2025 2 22)
      (header_map ["ItemName"; "DueDate"; "AdvanceDays"]) 0
      ["Car Insurance"; "03/01/2025"; "7,3,1"].
Proof.
  refine (proj2 (reordered_columns_same_row (PyDate.mkdate 2025 2 22) 0
    [("ItemName", "Car Insurance"); ("DueDate", "03/01/2025"); ("AdvanceDays", "7,3,1")]
    [("DueDate", "03/01/2025"); ("AdvanceDays", "7,3,1"); ("ItemName", "Car Insurance")]
    _ _)).
  - apply (bool_decide_unpack (NoDup ["ItemName"; "DueDate"; "AdvanceDays"])).
    vm_compute. exact I.
  - apply (bool_decide_unpack
             ([("ItemName", "Car Insurance"); ("DueDate", "03/01/2025");
               ("AdvanceDays", "7,3,1")]
              ≡ₚ [("DueDate", "03/01/2025"); ("AdvanceDays", "7,3,1");
                  ("ItemName", "Car Insurance")])).
    vm_compute. exact I.
Defined.

(** ** The pass as a function of the sheet and of the Handled items *)

Lemma active_item_status (k : string) :
  status_of (Some {["ItemID" := k; "Status" := "Active"]}) = "Active".
Proof. reflexivity. Qed.

Lemma registered_status (t : table_state) (k k' : string) :
  status_of (registered t k !! k') = status_of (t !! k').
Proof.
  unfold registered. destruct (t !! k) eqn:Hk; [done|].
  destruct (decide (k = k')) as [<-|Hne].
  - by rewrite lookup_insert_eq, Hk.
  - by rewrite lookup_insert_ne.
Qed.

Lemma process_row_status (today : PyDate.date) (hm : gmap string nat) (i : nat)
    (row : list string) (t : table_state) (k : string) :
  status_of (table_of (process_row today hm i row t) !! k) = status_of (t !! k).
Proof.
  destruct (process_row_store today hm i row t) as [[-> _] | [-> _]]; [done|].
  apply registered_status.
Qed.

(** The result and the sends of a row are those of its verdict. *)
Lemma process_row_verdict (today : PyDate.date) (hm : gmap string nat) (i : nat)
    (row : list string) (t : table_state) :
  result_of (process_row today hm i row t)
  = (row_verdict today hm row (is_handled t (id_of hm row))).1 /\
  sends (calls_of (process_row today hm i row t))
  = deliveries (row_verdict today hm row (is_handled t (id_of hm row))).2.
Proof.
  unfold row_verdict, is_handled.
  row_cases today hm i row t; read_outcome; cbn [negb orb fst snd].
  all: try (apply Z.ltb_lt in Hdays as ->).
  all: try (apply Z.ltb_ge in Hdays as ->).
  all: rewrite ?Hadv, ?Hmem; cbn [fst snd]; split; [reflexivity|].
  all: try reflexivity.
  all: change (?a :: ?l) with ([a] ++ l) at 1.
  all: autorewrite with calls; unfold deliveries; simpl; by rewrite ?app_nil_r.
Qed.

Lemma pass_verdict_ext (today : PyDate.date) (hm : gmap string nat)
    (handled handled' : string -> bool) (rows : list (list string)) :
  (forall k : string, handled k = handled' k) ->
  pass_verdict today hm handled rows = pass_verdict today hm handled' rows.
Proof.
  intros H. induction rows as [|row rest IH]; [done|].
  simpl. by rewrite H, IH.
Qed.

Lemma deliveries_app (e1 e2 : list notification) :
  deliveries (e1 ++ e2) = deliveries e1 ++ deliveries e2.
Proof. unfold deliveries. by rewrite fmap_app, concat_app. Qed.

Lemma process_rows_status (today : PyDate.date) (hm : gmap string nat)
    (rows : list (list string)) :
  forall (i : nat) (t : table_state) (k : string),
    status_of (table_of (process_rows today hm i rows t) !! k) = status_of (t !! k).
Proof.
  induction rows as [|row rest IH]; intros i t k; [done|].
  rewrite process_rows_cons.
  destruct (result_of (process_row today hm i row t)); cbv zeta; read_outcome.
  - apply process_row_status.
  - by rewrite IH, process_row_status.
Qed.

Lemma process_rows_verdict (today : PyDate.date) (hm : gmap string nat)
    (rows : list (list string)) :
  forall (i : nat) (t : table_state),
    result_of (process_rows today hm i rows t)
    = (pass_verdict today hm (is_handled t) rows).1 /\
    sends (calls_of (process_rows today hm i rows t))
    = deliveries (pass_verdict today hm (is_handled t) rows).2.
Proof.
  induction rows as [|row rest IH]; intros i t; [done|].
  rewrite process_rows_cons. simpl.
  destruct (process_row_verdict today hm i row t) as [Hres Hsends].
  destruct (row_verdict today hm row (is_handled t (id_of hm row))) as [[e|[]] events];
    simpl in Hres, Hsends; rewrite Hres; cbv zeta; read_outcome; simpl.
  - done.
  - destruct (IH (S i) (table_of (process_row today hm i row t))) as [IHres IHsends].
    rewrite (pass_verdict_ext today hm (is_handled t)
               (is_handled (table_of (process_row today hm i row t)))).
    + by rewrite IHres, sends_app, Hsends, IHsends, deliveries_app.
    + intros k. unfold is_handled. by rewrite process_row_status.
Qed.

Lemma pass_verdict_length (today : PyDate.date) (hm : gmap string nat)
    (handled : string -> bool) (rows : list (list string)) :
  (length (pass_verdict today hm handled rows).2 <= length rows)%nat.
Proof.
  induction rows as [|row rest IH]; [done|]. simpl.
  assert (length (row_verdict today hm row (handled (id_of hm row))).2 <= 1)%nat as Hrow.
  { unfold row_verdict. repeat case_match; simpl; lia. }
  destruct (row_verdict today hm row (handled (id_of hm row))) as [[e|[]] events];
    simpl in *; [lia|]. rewrite length_app. lia.
Qed.

(** X3. A pass never changes the status read for any ItemID: it marks
    nothing Handled and unmarks nothing, whether it goes through or
    raises. *)
Theorem pass_keeps_every_status (today : PyDate.date) (hm : gmap string nat)
    (i : nat) (rows : list (list string)) (t : table_state) (k : string) :
  status_of (table_of (process_rows today hm i rows t) !! k) = status_of (t !! k) /\
  is_handled (table_of (process_rows today hm i rows t)) k = is_handled t k.
Proof.
  split; [apply process_rows_status|].
  unfold is_handled. by rewrite process_rows_status.
Qed.

(** X4. The result and the sends of the loop over the rows are a function
    of the rows, the day and the ItemIDs that are Handled at the start:
    the sends deliver at most one event per row, in the order of the
    rows, up to the first row that raises. *)
Theorem pass_is_its_verdict (today : PyDate.date) (hm : gmap string nat)
    (i : nat) (rows : list (list string)) (t : table_state) :
  result_of (process_rows today hm i rows t)
  = (pass_verdict today hm (is_handled t) rows).1 /\
  sends (calls_of (process_rows today hm i rows t))
  = deliveries (pass_verdict today hm (is_handled t) rows).2 /\
  (length (pass_verdict today hm (is_handled t) rows).2 <= length rows)%nat.
Proof.
  destruct (process_rows_verdict today hm rows i t) as [Hres Hsends].
  split; [done|]. split; [done|]. apply pass_verdict_length.
Qed.

(** ** What a pass writes *)

Lemma elem_of_puts_of (k s : string) (cs : list call) :
  PutItem k s ∈ cs -> PutItem k s ∈ puts_of k cs.
Proof.
  intros Hin. unfold puts_of. apply list_elem_of_In, List.filter_In.
  split; [by apply list_elem_of_In|]. simpl. apply String.eqb_refl.
Qed.

Lemma registered_lookup (t : table_state) (k k' : string) :
  t !! k' = None ->
  is_Some (registered t k !! k') ->
  registered t k !! k' = Some {["ItemID" := k'; "Status" := "Active"]}.
Proof.
  intros Hnone. unfold registered. destruct (t !! k) eqn:Hk.
  - rewrite Hnone. by intros [? ?].
  - destruct (decide (k = k')) as [<-|Hne].
    + by rewrite lookup_insert_eq.
    + rewrite lookup_insert_ne, Hnone by done. by intros [? ?].
Qed.

Lemma process_row_new_item (today : PyDate.date) (hm : gmap string nat) (i : nat)
    (row : list string) (t : table_state) (k : string) :
  t !! k = None ->
  is_Some (table_of (process_row today hm i row t) !! k) ->
  table_of (process_row today hm i row t) !! k
  = Some {["ItemID" := k; "Status" := "Active"]}.
Proof.
  intros Hnone.
  destruct (process_row_store today hm i row t) as [[-> _] | [-> _]].
  - rewrite Hnone. by intros [? ?].
  - by apply registered_lookup.
Qed.

Lemma process_rows_new_item (today : PyDate.date) (hm : gmap string nat)
    (rows : list (list string)) :
  forall (i : nat) (t : table_state) (k : string),
    t !! k = None ->
    is_Some (table_of (process_rows today hm i rows t) !! k) ->
    table_of (process_rows today hm i rows t) !! k
    = Some {["ItemID" := k; "Status" := "Active"]}.
Proof.
  induction rows as [|row rest IH]; intros i t k Hnone.
  { unfold table_of. simpl. rewrite Hnone. by intros [? ?]. }
  rewrite process_rows_cons.
  destruct (result_of (process_row today hm i row t)); cbv zeta; read_outcome.
  - by apply process_row_new_item.
  - destruct (table_of (process_row today hm i row t) !! k) eqn:Hk.
    + intros _. apply process_rows_keeps.
      apply process_row_new_item; [done | by rewrite Hk].
    + by apply IH.
Qed.

(** X5. Whatever a pass writes is a first registration: each write is of
    status Active, under an ItemID that had no item when the pass began,
    it is the only write for that ItemID, and the item it leaves holds
    that ItemID and Active.  An item that was there stays as it was. *)
Theorem pass_writes_only_first_registrations (today : PyDate.date)
    (hm : gmap string nat) (i : nat) (rows : list (list string)) (t : table_state) :
  (forall k s : string,
      PutItem k s ∈ calls_of (process_rows today hm i rows t) ->
      s = "Active" /\ t !! k = None /\
      puts_of k (calls_of (process_rows today hm i rows t)) = [PutItem k "Active"] /\
      table_of (process_rows today hm i rows t) !! k
      = Some {["ItemID" := k; "Status" := "Active"]}) /\
  (forall (k : string) (item : gmap string string),
      t !! k = Some item ->
      table_of (process_rows today hm i rows t) !! k = Some item).
Proof.
  split; [|intros k item; apply process_rows_keeps].
  intros k s Hin%elem_of_puts_of.
  pose proof (process_rows_puts_of today hm rows i t k) as Hputs.
  rewrite Hputs in Hin |- *.
  destruct (t !! k) eqn:Hk; [by apply elem_of_nil in Hin|].
  destruct (table_of (process_rows today hm i rows t) !! k) eqn:Hk1;
    [|by apply elem_of_nil in Hin].
  apply list_elem_of_singleton in Hin. injection Hin as ->.
  repeat split; try done.
  rewrite <- Hk1. apply process_rows_new_item; [done|]. by rewrite Hk1.
Qed.

Lemma pass_writes_only_first_registrations_witness :
  table_of (process_rows (PyDate.mkdate 2025 2 22) (header_map sample_headers) 0
              [car_insurance; home_loan] ∅) !! "Home-Loan-02/25/2025"
  = Some {["ItemID" := "Home-Loan-02/25/2025"; "Status" := "Active"]}.
Proof.
  refine (proj2 (proj2 (proj2
    (proj1 (pass_writes_only_first_registrations (PyDate.mkdate 2025 2 22)
              (header_map sample_headers) 0 [car_insurance; home_loan] ∅)
       "Home-Loan-02/25/2025" "Active" _)))).
  apply (bool_decide_unpack _). vm_compute. exact I.
Defined.

(** ** Running the pass again *)

Lemma process_row_known_item (today : PyDate.date) (hm : gmap string nat) (i : nat)
    (row : list string) (t : table_state) :
  (PyStr.truthy (name_of hm row) = true ->
   PyStr.truthy (due_of hm row) = true ->
   is_Some (t !! id_of hm row)) ->
  table_of (process_row today hm i row t) = t /\
  puts (calls_of (process_row today hm i row t)) = [].
Proof.
  intros Hknown.
  destruct (PyStr.truthy (name_of hm row)) eqn:Hname;
    [destruct (PyStr.truthy (due_of hm row)) eqn:Hdue|].
  - destruct Hknown as [v Hv]; [done..|].
    destruct (process_row_store today hm i row t) as [[-> ->] | [-> ->]]; [done|].
    rewrite puts_first_seen. unfold registered. by rewrite Hv.
  - by rewrite (process_row_skipped today hm i row t) by (by right).
  - by rewrite (process_row_skipped today hm i row t) by (by left).
Qed.

Lemma process_rows_again (today : PyDate.date) (hm : gmap string nat)
    (rows : list (list string)) :
  forall (i : nat) (t t2 : table_state),
    (forall (k : string) (v : gmap string string),
        table_of (process_rows today hm i rows t) !! k = Some v -> t2 !! k = Some v) ->
    (forall k : string, is_handled t2 k = is_handled t k) ->
    table_of (process_rows today hm i rows t2) = t2 /\
    puts (calls_of (process_rows today hm i rows t2)) = [].
Proof.
  induction rows as [|row rest IH]; intros i t t2 Hsup Hsame; [done|].
  rewrite process_rows_cons in Hsup. rewrite process_rows_cons.
  assert (result_of (process_row today hm i row t2)
          = result_of (process_row today hm i row t)) as Hres.
  { rewrite (proj1 (process_row_verdict today hm i row t2)).
    rewrite (proj1 (process_row_verdict today hm i row t)). by rewrite Hsame. }
  assert (forall (k : string) (v : gmap string string),
             table_of (process_row today hm i row t) !! k = Some v ->
             t2 !! k = Some v) as Hsup1.
  { intros k v Hk. apply Hsup.
    destruct (result_of (process_row today hm i row t)); cbv zeta; read_outcome;
      [done|]. by apply process_rows_keeps. }
  assert (forall u : unit,
             result_of (process_row today hm i row t) = inr u ->
             forall (k : string) (v : gmap string string),
               table_of (process_rows today hm (S i) rest
                           (table_of (process_row today hm i row t))) !! k = Some v ->
               t2 !! k = Some v) as Hsup2.
  { intros u Hr k v Hk. apply Hsup. rewrite Hr. cbv zeta. by read_outcome. }
  clear Hsup.
  destruct (process_row_known_item today hm i row t2) as [Htab Hputs].
  { intros Hname Hdue.
    destruct (process_row_registers today hm i row t Hname Hdue) as [v Hv]. eauto. }
  rewrite Hres.
  destruct (result_of (process_row today hm i row t)) as [e|u] eqn:Hr;
    cbv zeta; read_outcome; [done|].
  rewrite Htab.
  destruct (IH (S i) (table_of (process_row today hm i row t)) t2) as [IHtab IHputs].
  - by apply (Hsup2 u).
  - intros k. rewrite Hsame. unfold is_handled. by rewrite process_row_status.
  - by rewrite puts_app, Hputs, IHputs.
Qed.

(** X6. Running the loop a second time, on the same rows and day and on
    the table the first run left, gives the same result and the same
    sends again, writes nothing and leaves the table as it is; this holds
    also when the run raises. *)
Theorem second_pass_registers_nothing (today : PyDate.date) (hm : gmap string nat)
    (i : nat) (rows : list (list string)) (t : table_state) :
  result_of (process_rows today hm i rows (table_of (process_rows today hm i rows t)))
  = result_of (process_rows today hm i rows t) /\
  sends (calls_of (process_rows today hm i rows
                     (table_of (process_rows today hm i rows t))))
  = sends (calls_of (process_rows today hm i rows t)) /\
  puts (calls_of (process_rows today hm i rows
                    (table_of (process_rows today hm i rows t)))) = [] /\
  table_of (process_rows today hm i rows (table_of (process_rows today hm i rows t)))
  = table_of (process_rows today hm i rows t).
Proof.
  assert (forall k : string,
             is_handled (table_of (process_rows today hm i rows t)) k = is_handled t k)
    as Hsame.
  { intros k. unfold is_handled. by rewrite process_rows_status. }
  destruct (process_rows_verdict today hm rows i
              (table_of (process_rows today hm i rows t))) as [Hres2 Hsends2].
  destruct (process_rows_verdict today hm rows i t) as [Hres1 Hsends1].
  rewrite (pass_verdict_ext today hm _ (is_handled t) rows Hsame) in Hres2, Hsends2.
  destruct (process_rows_again today hm rows i t
              (table_of (process_rows today hm i rows t))) as [Htab Hputs];
    [done | done |].
  repeat split; congruence.
Qed.

(** X7. Only the exact status Handled silences a row.  For a row whose
    item is stored with any other status, or with no status at all, the
    result and the sends are those of the same row on an empty table, and
    the row writes nothing and leaves the table as it is. *)
Theorem stored_item_not_handled (today : PyDate.date) (hm : gmap string nat)
    (i : nat) (row : list string) (t : table_state) (item : gmap string string) :
  t !! id_of hm row = Some item ->
  item !! "Status" <> Some "Handled" ->
  result_of (process_row today hm i row t) = result_of (process_row today hm i row ∅) /\
  sends (calls_of (process_row today hm i row t))
  = sends (calls_of (process_row today hm i row ∅)) /\
  puts (calls_of (process_row today hm i row t)) = [] /\
  table_of (process_row today hm i row t) = t.
Proof.
  intros Hitem Hst.
  assert (is_handled t (id_of hm row) = is_handled ∅ (id_of hm row)) as Hsame.
  { unfold is_handled, status_of. rewrite Hitem, lookup_empty. simpl.
    destruct (item !! "Status") as [s|] eqn:Hs; simpl; [|done].
    destruct (String.eqb_spec s "Handled") as [->|]; [done|].
    by rewrite lookup_empty. }
  destruct (process_row_verdict today hm i row t) as [-> ->].
  destruct (process_row_verdict today hm i row ∅) as [-> ->].
  rewrite Hsame.
  destruct (process_row_known_item today hm i row t) as [-> ->]; [eauto|done].
Qed.

Lemma stored_item_not_handled_witness :
  sends (calls_of (process_row (PyDate.mkdate 2025 2 22) (header_map sample_headers) 0
                     car_insurance
                     {["Car-Insurance-03/01/2025" := {["Status" := "Paused"]}]}))
  = sends (calls_of (process_row (PyDate.mkdate 2025 2 22) (header_map sample_headers) 0
                       car_insurance ∅)).
Proof.
  refine (proj1 (proj2
    (stored_item_not_handled (PyDate.mkdate 2025 2 22) (header_map sample_headers) 0
       car_insurance {["Car-Insurance-03/01/2025" := {["Status" := "Paused"]}]}
       {["Status" := "Paused"]} eq_refl _))).
  vm_compute. discriminate.
Defined.

(** ** When a pass fails and when it goes through *)

Lemma int_fields_raises (fields : list string) (e : exn) :
  int_fields fields = inl e ->
  exists d : string,
    d ∈ fields /\ PyStr.strip d <> "" /\ PyStr.int (PyStr.strip d) = None /\
    e = ValueError (PyStr.strip d).
Proof.
  induction fields as [|d rest IH]; simpl; [done|].
  destruct (PyStr.truthy (PyStr.strip d)) eqn:Htruthy.
  - destruct (PyStr.int (PyStr.strip d)) as [n|] eqn:Hint.
    + destruct (int_fields rest) as [e'|ns]; [|done].
      intros [= <-]. destruct IH as (d' & Hin & Hrest); [done|].
      exists d'. split; [by right | done].
    + intros [= <-]. exists d. repeat split; [by left | | done].
      intros Hempty. by rewrite Hempty in Htruthy.
  - intros H. destruct (IH H) as (d' & Hin & Hrest).
    exists d'. split; [by right | done].
Qed.

Lemma int_fields_blank (fields : list string) :
  (forall d : string, d ∈ fields -> PyStr.strip d = "") -> int_fields fields = inr [].
Proof.
  induction fields as [|d rest IH]; intros Hblank; simpl; [done|].
  rewrite (Hblank d) by by left. simpl. apply IH.
  intros d' Hin. apply Hblank. by right.
Qed.

Lemma row_verdict_raises (today : PyDate.date) (hm : gmap string nat)
    (row : list string) (handled : bool) (e : exn) :
  (row_verdict today hm row handled).1 = inl e ->
  advance_days (cell hm row "AdvanceDays" "") = inl e.
Proof. unfold row_verdict. repeat case_match; simpl; congruence. Qed.

Lemma pass_verdict_raises (today : PyDate.date) (hm : gmap string nat)
    (handled : string -> bool) (rows : list (list string)) (e : exn) :
  (pass_verdict today hm handled rows).1 = inl e ->
  exists row : list string,
    row ∈ rows /\ advance_days (cell hm row "AdvanceDays" "") = inl e.
Proof.
  induction rows as [|row rest IH]; simpl; [done|].
  destruct (row_verdict today hm row (handled (id_of hm row))) as [[e'|[]] events]
    eqn:Hrow; simpl.
  - intros [= <-]. exists row. split; [by left|].
    apply (row_verdict_raises today hm row (handled (id_of hm row))). by rewrite Hrow.
  - intros H. destruct (IH H) as (row' & Hin & Hadv).
    exists row'. split; [by right | done].
Qed.

Lemma handler_result (str_of : exn -> string) (today : PyDate.date)
    (fetched : exn + list (list string)) (t : table_state) :
  result_of (daily_reminder_handler str_of today fetched t)
  = result_of (pass today fetched t).
Proof.
  unfold daily_reminder_handler, bind, print, try_except, send_telegram_alert, raise.
  by destruct (pass today fetched t) as [[[e|r] t1] c].
Qed.

Lemma pass_on_rows (today : PyDate.date) (headers : list string)
    (rows : list (list string)) (t : table_state) :
  pass today (inr (headers :: rows)) t
  = match result_of (process_rows today (header_map headers) 0 rows t) with
    | inl e =>
        (inl e, table_of (process_rows today (header_map headers) 0 rows t),
         Print ("Found " +:+ pretty (length rows) +:+ " records in the spreadsheet.")
         :: calls_of (process_rows today (header_map headers) 0 rows t))
    | inr _ =>
        (inr success, table_of (process_rows today (header_map headers) 0 rows t),
         Print ("Found " +:+ pretty (length rows) +:+ " records in the spreadsheet.")
         :: calls_of (process_rows today (header_map headers) 0 rows t) ++
         [Print (nl +:+ "Daily reminder check finished successfully.")])
    end.
Proof.
  unfold pass, bind, lift, ret, print, result_of, table_of, calls_of.
  destruct (process_rows today (header_map headers) 0 rows t) as [[[e|[]] t1] c];
    simpl; [done|]. by rewrite ?app_nil_r.
Qed.

(** Over a store that answers every call, the handler fails with the error
    of the fetch, with an IndexError, or with the ValueError of [int]. *)
Lemma answering_store_failures (str_of : exn -> string) (today : PyDate.date)
    (fetched : exn + list (list string)) (t : table_state) (e : exn) :
  result_of (daily_reminder_handler str_of today fetched t) = inl e ->
  fetched = inl e \/
  (fetched = inr [] /\ e = IndexError) \/
  exists (headers : list string) (rows : list (list string)) (row : list string)
         (d : string),
    fetched = inr (headers :: rows) /\ row ∈ rows /\
    d ∈ PyStr.split "," (cell (header_map headers) row "AdvanceDays" "") /\
    PyStr.strip d <> "" /\ PyStr.int (PyStr.strip d) = None /\
    e = ValueError (PyStr.strip d).
Proof.
  rewrite handler_result.
  destruct fetched as [e'|[|headers rows]].
  - intros [= <-]. by left.
  - intros [= <-]. right. by left.
  - rewrite pass_on_rows.
    destruct (result_of (process_rows today (header_map headers) 0 rows t)) as [e'|u]
      eqn:Hres; read_outcome; [|done].
    intros [= <-]. right. right.
    rewrite (proj1 (process_rows_verdict today (header_map headers) rows 0 t)) in Hres.
    apply pass_verdict_raises in Hres as (row & Hin & Hadv).
    apply int_fields_raises in Hadv as (d & Hd & Hrest).
    by exists headers, rows, row, d.
Qed.

(** Over a store that answers every call, a sheet whose advance-days cells
    all parse goes through. *)
Lemma answering_store_succeeds (str_of : exn -> string) (today : PyDate.date)
    (headers : list string) (rows : list (list string)) (t : table_state) :
  (forall row : list string,
      row ∈ rows ->
      exists l : list Z,
        advance_days (cell (header_map headers) row "AdvanceDays" "") = inr l) ->
  result_of (daily_reminder_handler str_of today (inr (headers :: rows)) t)
  = inr success /\
  sends (calls_of (daily_reminder_handler str_of today (inr (headers :: rows)) t))
  = deliveries (pass_verdict today (header_map headers) (is_handled t) rows).2 /\
  last (calls_of (daily_reminder_handler str_of today (inr (headers :: rows)) t))
  = Some (Print (nl +:+ "Daily reminder check finished successfully.")).
Proof.
  intros Hwf.
  destruct (process_rows_verdict today (header_map headers) rows 0 t) as [Hres Hsends].
  assert (result_of (process_rows today (header_map headers) 0 rows t) = inr tt)
    as Hok.
  { destruct (result_of (process_rows today (header_map headers) 0 rows t))
      as [e|[]]; [|done].
    symmetry in Hres. apply pass_verdict_raises in Hres as (row & Hin & Hadv).
    destruct (Hwf row Hin) as [l Hl]. congruence. }
  unfold daily_reminder_handler, bind, print, try_except.
  rewrite pass_on_rows, Hok. read_outcome. repeat split.
  - simpl. rewrite sends_app, Hsends. simpl. by rewrite app_nil_r.
  - simpl. rewrite !app_comm_cons. apply last_snoc.
Qed.

(** X10. A row whose advance-days cell has only blank entries, which is
    the case when the sheet has no AdvanceDays column, never raises and
    never gives a DueSoon event: it sends nothing, or the Overdue event
    when its due date is past. *)
Theorem row_without_advance_days (today : PyDate.date) (hm : gmap string nat)
    (i : nat) (row : list string) (t : table_state) :
  (hm !! "AdvanceDays" = None ->
   forall d : string,
     d ∈ PyStr.split "," (cell hm row "AdvanceDays" "") -> PyStr.strip d = "") /\
  ((forall d : string,
       d ∈ PyStr.split "," (cell hm row "AdvanceDays" "") -> PyStr.strip d = "") ->
   result_of (process_row today hm i row t) = inr tt /\
   (sends (calls_of (process_row today hm i row t)) = [] \/
    exists due_date : PyDate.date,
      PyDate.strptime_mdY (due_of hm row) = Some due_date /\
      PyDate.days_between due_date today < 0 /\
      sends (calls_of (process_row today hm i row t))
      = delivery (overdue_event hm row (PyDate.days_between due_date today)))).
Proof.
  split.
  - intros Hnone d. rewrite (cell_missing_header hm row _ _ Hnone). simpl.
    by intros ->%list_elem_of_singleton.
  - intros Hblank%int_fields_blank.
    destruct (process_row_verdict today hm i row t) as [-> ->].
    unfold row_verdict, advance_days. rewrite Hblank.
    repeat case_match; simpl; split; try done; try (by left).
    right. eexists. split; [done|]. split; [by apply Z.ltb_lt|].
    unfold deliveries. simpl. by rewrite ?app_nil_r.
Qed.

Lemma row_without_advance_days_witness :
  result_of (process_row (PyDate.mkdate 2025 2 22) (header_map ["ItemName"; "DueDate"])
               0 ["Car Insurance"; "03/01/2025"] ∅) = inr tt.
Proof.
  pose proof (row_without_advance_days (PyDate.mkdate 2025 2 22)
                (header_map ["ItemName"; "DueDate"]) 0
                ["Car Insurance"; "03/01/2025"] ∅) as [Hmissing Hrow].
  exact (proj1 (Hrow (Hmissing eq_refl))).
Defined.

(** X11. The loop over a sheet cut in two is the loop over the first part
    followed, when that part raises nothing, by the loop over the second
    part on the table the first part left, the rows keeping their
    numbers. *)
Theorem process_rows_app (today : PyDate.date) (hm : gmap string nat)
    (rows1 rows2 : list (list string)) :
  forall (i : nat) (t : table_state),
    process_rows today hm i (rows1 ++ rows2) t
    = match result_of (process_rows today hm i rows1 t) with
      | inl e =>
          (inl e, table_of (process_rows today hm i rows1 t),
           calls_of (process_rows today hm i rows1 t))
      | inr _ =>
          (result_of (process_rows today hm (i + length rows1) rows2
                        (table_of (process_rows today hm i rows1 t))),
           table_of (process_rows today hm (i + length rows1) rows2
                       (table_of (process_rows today hm i rows1 t))),
           calls_of (process_rows today hm i rows1 t) ++
           calls_of (process_rows today hm (i + length rows1) rows2
                       (table_of (process_rows today hm i rows1 t))))
      end.
Proof.
  induction rows1 as [|row rest IH]; intros i t.
  { simpl. unfold ret. read_outcome. rewrite Nat.add_0_r.
    by destruct (process_rows today hm i rows2 t) as [[r t1] c]. }
  change ((row :: rest) ++ rows2) with (row :: (rest ++ rows2)).
  rewrite (process_rows_cons today hm i row (rest ++ rows2)).
  rewrite (process_rows_cons today hm i row rest).
  destruct (result_of (process_row today hm i row t)) as [e|u]; cbv zeta;
    read_outcome; [done|].
  rewrite IH.
  replace (i + length (row :: rest))%nat with (S i + length rest)%nat by (simpl; lia).
  destruct (result_of (process_rows today hm (S i) rest
                         (table_of (process_row today hm i row t)))) as [e|u'];
    read_outcome; [done|].
  by rewrite app_assoc.
Qed.

(** ** Days until due and the calendar *)

Lemma is_leap_spec (y : Z) :
  PyDate.is_leap y = true <-> y mod 4 = 0 /\ (y mod 100 <> 0 \/ y mod 400 = 0).
Proof.
  unfold PyDate.is_leap.
  rewrite andb_true_iff, orb_true_iff, negb_true_iff, !Z.eqb_eq, Z.eqb_neq. tauto.
Qed.

Lemma days_before_year_succ (y : Z) :
  PyDate.days_before_year (y + 1)
  = PyDate.days_before_year y + (if PyDate.is_leap y then 366 else 365).
Proof.
  unfold PyDate.days_before_year. cbv zeta.
  replace (y + 1 - 1) with y by lia.
  destruct (PyDate.is_leap y) eqn:Hleap.
  - apply is_leap_spec in Hleap. Z.div_mod_to_equations. lia.
  - assert (~ (y mod 4 = 0 /\ (y mod 100 <> 0 \/ y mod 400 = 0))) as Hn.
    { intros H%is_leap_spec. congruence. }
    Z.div_mod_to_equations. lia.
Qed.

Lemma days_before_year_mono (y1 y2 : Z) :
  y1 <= y2 -> PyDate.days_before_year y1 <= PyDate.days_before_year y2.
Proof. unfold PyDate.days_before_year. cbv zeta. Z.div_mod_to_equations. lia. Qed.

Lemma days_in_month_pos (y m : Z) : 28 <= PyDate.days_in_month y m <= 31.
Proof. unfold PyDate.days_in_month. repeat case_match; lia. Qed.

Lemma days_before_month_succ (y m : Z) :
  1 <= m ->
  PyDate.days_before_month y (m + 1)
  = PyDate.days_before_month y m + PyDate.days_in_month y m.
Proof.
  intros Hm. unfold PyDate.days_before_month.
  replace (Z.to_nat (m + 1 - 1)) with (S (Z.to_nat (m - 1))) by lia.
  simpl PyDate.days_before_month_aux. do 2 f_equal. lia.
Qed.

Lemma days_before_month_mono (y m1 m2 : Z) :
  1 <= m1 -> m1 <= m2 ->
  PyDate.days_before_month y m1 <= PyDate.days_before_month y m2.
Proof.
  intros H1 Hle. pattern m2. apply (Zlt_lower_bound_ind _ m1); [|done].
  intros m IH Hm. destruct (decide (m = m1)) as [->|Hne]; [lia|].
  replace m with ((m - 1) + 1) by lia.
  rewrite days_before_month_succ by lia.
  pose proof (days_in_month_pos y (m - 1)). specialize (IH (m - 1)). lia.
Qed.

Lemma days_before_month_13 (y : Z) :
  PyDate.days_before_month y 13 = if PyDate.is_leap y then 366 else 365.
Proof.
  unfold PyDate.days_before_month. simpl. unfold PyDate.days_in_month. simpl.
  by destruct (PyDate.is_leap y).
Qed.

Lemma valid_spec (d : PyDate.date) :
  PyDate.valid d = true ->
  1 <= PyDate.year d <= 9999 /\ 1 <= PyDate.month d <= 12 /\
  1 <= PyDate.day d <= PyDate.days_in_month (PyDate.year d) (PyDate.month d).
Proof. unfold PyDate.valid. rewrite !andb_true_iff, !Z.leb_le. tauto. Qed.

(** The day of a valid date within its year. *)
Lemma day_of_year_bounds (d : PyDate.date) :
  PyDate.valid d = true ->
  1 <= PyDate.days_before_month (PyDate.year d) (PyDate.month d) + PyDate.day d
    <= if PyDate.is_leap (PyDate.year d) then 366 else 365.
Proof.
  intros (_ & Hm & Hd)%valid_spec.
  pose proof (days_before_month_mono (PyDate.year d) 1 (PyDate.month d)) as Hlo.
  pose proof (days_before_month_mono (PyDate.year d) (PyDate.month d + 1) 13) as Hhi.
  rewrite days_before_month_succ, days_before_month_13 in Hhi by lia.
  change (PyDate.days_before_month (PyDate.year d) 1) with 0 in Hlo.
  lia.
Qed.

Lemma toordinal_before (a b : PyDate.date) :
  PyDate.valid a = true -> PyDate.valid b = true -> before a b ->
  PyDate.toordinal a < PyDate.toordinal b.
Proof.
  intros Ha Hb Hbefore. unfold PyDate.toordinal.
  pose proof (day_of_year_bounds a Ha) as Hda.
  pose proof (day_of_year_bounds b Hb) as Hdb.
  destruct Hbefore as [Hy | [Hy [Hm | [Hm Hd]]]].
  - pose proof (days_before_year_mono (PyDate.year a + 1) (PyDate.year b)) as Hmono.
    rewrite days_before_year_succ in Hmono. lia.
  - apply valid_spec in Ha as (_ & Hma & Hdaya). apply valid_spec in Hb as (_ & _ & Hdayb).
    pose proof (days_before_month_mono (PyDate.year b) (PyDate.month a + 1)
                  (PyDate.month b)) as Hmono.
    rewrite Hy in *. rewrite days_before_month_succ in Hmono by lia. lia.
  - rewrite Hy, Hm. lia.
Qed.

Lemma days_between_sign (a b : PyDate.date) :
  PyDate.valid a = true ->
  PyDate.valid b = true ->
  (PyDate.days_between a b < 0 <-> before a b) /\
  (PyDate.days_between a b = 0 <-> a = b) /\
  (0 < PyDate.days_between a b <-> before b a).
Proof.
  intros Ha Hb. unfold PyDate.days_between.
  assert (before a b \/ a = b \/ before b a) as Hcases.
  { destruct a as [ya ma da], b as [yb mb db]. unfold before. simpl.
    assert (ya < yb \/ ya = yb \/ yb < ya) as [?|[->|?]] by lia; [tauto | | tauto].
    assert (ma < mb \/ ma = mb \/ mb < ma) as [?|[->|?]] by lia; [tauto | | tauto].
    assert (da < db \/ da = db \/ db < da) as [?|[->|?]] by lia; tauto. }
  pose proof (toordinal_before a b Ha Hb) as Hab.
  pose proof (toordinal_before b a Hb Ha) as Hba.
  repeat split.
  - intros Hlt. destruct Hcases as [?|[->|?]]; [done | lia | ]. specialize (Hba H). lia.
  - intros H. specialize (Hab H). lia.
  - intros Heq. destruct Hcases as [H|[?|H]]; [specialize (Hab H); lia | done | ].
    specialize (Hba H). lia.
  - intros ->. lia.
  - intros Hgt. destruct Hcases as [H|[->|?]]; [specialize (Hab H); lia | lia | done].
  - intros H. specialize (Hba H). lia.
Qed.

(** X12. For two dates that exist, the number of days from the second to
    the first is negative exactly when the first comes before the second
    in the calendar, zero exactly when they are the same date, and
    positive exactly when the first comes after the second. *)
Theorem days_between_follows_calendar (a b : PyDate.date) :
  PyDate.valid a = true ->
  PyDate.valid b = true ->
  (PyDate.days_between a b < 0 <-> before a b) /\
  (PyDate.days_between a b = 0 <-> a = b) /\
  (0 < PyDate.days_between a b <-> before b a).
Proof. apply days_between_sign. Qed.

Lemma days_between_follows_calendar_witness :
  PyDate.days_between (PyDate.mkdate 2025 3 1) (PyDate.mkdate 2025 3 5) < 0 <->
  before (PyDate.mkdate 2025 3 1) (PyDate.mkdate 2025 3 5).
Proof.
  exact (proj1 (days_between_follows_calendar (PyDate.mkdate 2025 3 1)
                  (PyDate.mkdate 2025 3 5) eq_refl eq_refl)).
Defined.

Lemma strptime_valid (s : string) (d : PyDate.date) :
  PyDate.strptime_mdY s = Some d -> PyDate.valid d = true.
Proof.
  unfold PyDate.strptime_mdY.
  destruct (PyDate.match_mdY s) as [[[m dd] y]|]; [|done].
  destruct (PyDate.valid (PyDate.mkdate y m dd)) eqn:Hv; [|done].
  by intros [= <-].
Qed.

Lemma deliveries_one (n : notification) : deliveries [n] = delivery n.
Proof. unfold deliveries. simpl. apply app_nil_r. Qed.

(** The chat message of an Overdue event is never that of a DueSoon
    event: their markers differ. *)
Lemma overdue_is_not_due_soon (n1 d1 p1 n2 d2 p2 a2 i2 b2 : string) (k1 k2 : Z) :
  delivery (Overdue n1 d1 k1 p1) <> delivery (DueSoon n2 d2 k2 p2 a2 i2 b2).
Proof.
  unfold delivery, overdue_marker, reminder_marker. simpl. by intros [=].
Qed.

(** X13. On a day that exists, a valid row gives the Overdue event
    exactly when its due date comes before that day in the calendar. *)
Theorem overdue_exactly_when_past (today : PyDate.date) (hm : gmap string nat)
    (i : nat) (row : list string) (t : table_state) (due_date : PyDate.date) :
  PyDate.valid today = true ->
  PyStr.truthy (name_of hm row) = true ->
  PyStr.truthy (due_of hm row) = true ->
  is_handled t (id_of hm row) = false ->
  PyDate.strptime_mdY (due_of hm row) = Some due_date ->
  (sends (calls_of (process_row today hm i row t))
   = delivery (overdue_event hm row (PyDate.days_between due_date today))
   <-> before due_date today).
Proof.
  intros Htoday Hname Hdue Hst Hparse.
  pose proof (strptime_valid _ _ Hparse) as Hvalid.
  destruct (days_between_sign due_date today Hvalid Htoday) as (Hlt & _ & _).
  rewrite <- Hlt.
  rewrite (proj2 (process_row_verdict today hm i row t)).
  unfold row_verdict. rewrite Hname, Hdue, Hst, Hparse. cbn [negb orb].
  destruct (Z.ltb_spec (PyDate.days_between due_date today) 0) as [Hneg|Hpos].
  - cbn [snd]. by rewrite deliveries_one.
  - split; [|lia]. intros H. exfalso. revert H.
    destruct (advance_days (cell hm row "AdvanceDays" "")) as [e|l]; cbn [snd].
    + intros H. by destruct (delivery_not_nil _ (eq_sym H)).
    + destruct (mem (PyDate.days_between due_date today) l); cbn [snd].
      * rewrite deliveries_one. intros H. symmetry in H. revert H.
        apply overdue_is_not_due_soon.
      * intros H. by destruct (delivery_not_nil _ (eq_sym H)).
Qed.

Lemma overdue_exactly_when_past_witness :
  sends (calls_of (process_row (PyDate.mkdate 2025 3 5) (header_map sample_headers)
                     0 car_insurance ∅))
  = delivery (overdue_event (header_map sample_headers) car_insurance
                (PyDate.days_between (PyDate.mkdate 2025 3 1) (PyDate.mkdate 2025 3 5)))
  <-> before (PyDate.mkdate 2025 3 1) (PyDate.mkdate 2025 3 5).
Proof.
  exact (overdue_exactly_when_past (PyDate.mkdate 2025 3 5) (header_map sample_headers)
           0 car_insurance ∅ (PyDate.mkdate 2025 3 1)
           eq_refl eq_refl eq_refl eq_refl eq_refl).
Defined.

(** ** When two ItemIDs are equal *)

Lemma append_inv_head (p s1 s2 : string) : p +:+ s1 = p +:+ s2 -> s1 = s2.
Proof.
  induction p as [|c p IH]; simpl; [done|].
  change (String c p +:+ ?r) with (String c (p +:+ r)).
  intros [= H]. by apply IH.
Qed.

Lemma replace_plain (s : string) : plain s = true -> PyStr.replace " " "-" s = s.
Proof.
  induction s as [|c s IH]; simpl; [done|].
  rewrite !andb_true_iff, !negb_true_iff. intros [[Hsp _] Hs].
  by rewrite Hsp, IH.
Qed.

Lemma plain_hyphen_split (n1 n2 r1 r2 : string) :
  plain n1 = true -> plain n2 = true ->
  n1 +:+ String "-" r1 = n2 +:+ String "-" r2 -> n1 = n2 /\ r1 = r2.
Proof.
  revert n2. induction n1 as [|c n1 IH]; intros [|c' n2]; simpl;
    rewrite ?andb_true_iff, ?negb_true_iff.
  - by intros _ _ [= ->].
  - change (String c' n2 +:+ ?r) with (String c' (n2 +:+ r)).
    intros _ [[_ Hh] _] [= <- _]. by rewrite Ascii.eqb_refl in Hh.
  - change (String c n1 +:+ ?r) with (String c (n1 +:+ r)).
    intros [[_ Hh] _] _ [= -> _]. by rewrite Ascii.eqb_refl in Hh.
  - change (String c n1 +:+ ?r) with (String c (n1 +:+ r)).
    change (String c' n2 +:+ ?r) with (String c' (n2 +:+ r)).
    intros [_ H1] [_ H2] [= -> H]. destruct (IH n2 H1 H2 H) as [-> ->]. done.
Qed.

(** X19. For one name, two due-date strings give the same ItemID only
    when they are the same string; and two names with no space and no
    hyphen in them give the same ItemID only with the same name and the
    same due-date string. *)
Theorem item_id_tells_apart (n1 d1 n2 d2 : string) :
  (item_id_of n1 d1 = item_id_of n1 d2 -> d1 = d2) /\
  (plain n1 = true -> plain n2 = true ->
   item_id_of n1 d1 = item_id_of n2 d2 -> n1 = n2 /\ d1 = d2).
Proof.
  unfold item_id_of. split.
  - intros H%append_inv_head. by injection H.
  - intros H1 H2. rewrite !replace_plain by done.
    by apply plain_hyphen_split.
Qed.

Lemma item_id_tells_apart_witness :
  "Rent" = "Rent" /\ "03/01/2025" = "03/01/2025".
Proof.
  exact (proj2 (item_id_tells_apart "Rent" "03/01/2025" "Rent" "03/01/2025")
           eq_refl eq_refl eq_refl).
Defined.

(** ** The channels *)

Section Channels.

Import Channel.

Variable e : env.

Lemma posts_app (a1 a2 : list action) :
  List.filter is_post (a1 ++ a2) = List.filter is_post a1 ++ List.filter is_post a2.
Proof. apply List.filter_app. Qed.

Lemma mails_app (a1 a2 : list action) :
  List.filter is_mail (a1 ++ a2) = List.filter is_mail a1 ++ List.filter is_mail a2.
Proof. apply List.filter_app. Qed.

Lemma send_email_alert_no_post
    (ses : string -> list string -> string -> string -> option string)
    (subject body : string) :
  List.filter is_post (send_email_alert e ses subject body) = [].
Proof. unfold send_email_alert. by repeat case_match. Qed.

Lemma send_telegram_alert_no_mail
    (post : string -> list (string * string) -> post_outcome) (message : string) :
  List.filter is_mail (send_telegram_alert e post message) = [].
Proof. unfold send_telegram_alert. by repeat case_match. Qed.

(** X14. When the bot token or the chat id is not set, or is empty, the
    chat sender only prints that it skips the alert, and a run makes no
    POST at all, whatever its calls are. *)
Theorem telegram_unset_never_posts (w : transports) (n : nat) (cs : list call) :
  unset (TELEGRAM_BOT_TOKEN e) || unset (TELEGRAM_CHAT_ID e) = true ->
  (forall (post : string -> list (string * string) -> post_outcome) (message : string),
      send_telegram_alert e post message
      = [Stdout "Telegram environment variables not set. Skipping alert."]) /\
  List.filter is_post (perform e w n cs) = [].
Proof.
  intros Hunset.
  assert (forall (post : string -> list (string * string) -> post_outcome)
                 (message : string),
             send_telegram_alert e post message
             = [Stdout "Telegram environment variables not set. Skipping alert."])
    as Hskip.
  { intros post message. unfold send_telegram_alert. by rewrite Hunset. }
  split; [done|].
  revert n. induction cs as [|c rest IH]; intros n; [done|].
  simpl. rewrite posts_app, IH, app_nil_r.
  destruct c; try done.
  - by rewrite Hskip.
  - apply send_email_alert_no_post.
Qed.

(** X15. When the sender or the recipient address is not set, or is
    empty, the mail sender only prints that it skips the alert, and a run
    never calls the mail service. *)
Theorem email_unset_never_mails (w : transports) (n : nat) (cs : list call) :
  unset (FROM_EMAIL e) || unset (TO_EMAIL e) = true ->
  (forall (ses : string -> list string -> string -> string -> option string)
          (subject body : string),
      send_email_alert e ses subject body
      = [Stdout "Email environment variables not set. Skipping alert."]) /\
  List.filter is_mail (perform e w n cs) = [].
Proof.
  intros Hunset.
  assert (forall (ses : string -> list string -> string -> string -> option string)
                 (subject body : string),
             send_email_alert e ses subject body
             = [Stdout "Email environment variables not set. Skipping alert."])
    as Hskip.
  { intros ses subject body. unfold send_email_alert. by rewrite Hunset. }
  split; [done|].
  revert n. induction cs as [|c rest IH]; intros n; [done|].
  simpl. rewrite mails_app, IH, app_nil_r.
  destruct c; try done.
  - apply send_telegram_alert_no_mail.
  - by rewrite Hskip.
Qed.

(** X16. With the token and the chat id set, a run makes one POST for
    each chat alert it asks for, in order and whether or not the earlier
    ones went through: each goes to the bot's sendMessage address and
    carries the chat id, the message and the Markdown parse mode. *)
Theorem telegram_posts_each_alert_once (w : transports) (n : nat) (cs : list call)
    (token chat_id : string) :
  TELEGRAM_BOT_TOKEN e = Some token ->
  TELEGRAM_CHAT_ID e = Some chat_id ->
  PyStr.truthy token = true ->
  PyStr.truthy chat_id = true ->
  List.filter is_post (perform e w n cs)
  = (fun message =>
       HttpPost ("https://api.telegram.org/bot" +:+ token +:+ "/sendMessage")
         [("chat_id", chat_id); ("text", message); ("parse_mode", "Markdown")])
    <$> telegram_messages cs.
Proof.
  intros Htoken Hchat Ht Hc.
  revert n. induction cs as [|c rest IH]; intros n; [done|].
  simpl. rewrite posts_app, IH.
  destruct c; try done.
  - unfold send_telegram_alert, unset. rewrite Htoken, Hchat, Ht, Hc. simpl.
    by repeat case_match.
  - by rewrite send_email_alert_no_post.
Qed.

(** X17. With both addresses set, a run calls the mail service once for
    each mail it asks for, in order and whether or not the earlier calls
    raised: from the sender address, to the one recipient, with the
    subject and the body as given and the UTF-8 charset. *)
Theorem email_sends_each_mail_once (w : transports) (n : nat) (cs : list call)
    (from to : string) :
  FROM_EMAIL e = Some from ->
  TO_EMAIL e = Some to ->
  PyStr.truthy from = true ->
  PyStr.truthy to = true ->
  List.filter is_mail (perform e w n cs)
  = (fun m : string * string => SesSendEmail from [to] m.1 m.2 "UTF-8")
    <$> email_messages cs.
Proof.
  intros Hfrom Hto Hf Ht.
  revert n. induction cs as [|c rest IH]; intros n; [done|].
  simpl. rewrite mails_app, IH.
  destruct c; try done.
  - by rewrite send_telegram_alert_no_mail.
  - unfold send_email_alert, unset. rewrite Hfrom, Hto, Hf, Ht. simpl.
    by repeat case_match.
Qed.

(** X18. With the token and the chat id set, the chat sender does three
    things: it prints that it sends, makes the POST, and prints one more
    line.  That line says that the alert was sent exactly when the
    transport answered with a status outside 400 to 599.  Otherwise it is
    the error line: with the text of the exception when the POST raised,
    and with the status, "Client Error" (400 to 499) or "Server Error"
    (500 to 599), the reason and the address when the answer was an
    error.  Nothing is raised or tried again. *)
Theorem telegram_reports_what_happened
    (post : string -> list (string * string) -> post_outcome) (message : string) :
  unset (TELEGRAM_BOT_TOKEN e) || unset (TELEGRAM_CHAT_ID e) = false ->
  exists (url : string) (payload : list (string * string)) (line : string),
    send_telegram_alert e post message
    = [Stdout "Sending Telegram alert..."; HttpPost url payload; Stdout line] /\
    (line = "Telegram alert sent successfully." <->
     exists r : http_response,
       post url payload = Responded r /\
       (status_code r < 400 \/ 600 <= status_code r)) /\
    (forall text : string,
        post url payload = RequestFailed text ->
        line = "Error sending Telegram alert: " +:+ text) /\
    (forall r : http_response,
        post url payload = Responded r ->
        400 <= status_code r < 500 ->
        line = "Error sending Telegram alert: " +:+ pretty (status_code r) +:+
               " Client Error: " +:+ reason r +:+ " for url: " +:+ response_url r) /\
    (forall r : http_response,
        post url payload = Responded r ->
        500 <= status_code r < 600 ->
        line = "Error sending Telegram alert: " +:+ pretty (status_code r) +:+
               " Server Error: " +:+ reason r +:+ " for url: " +:+ response_url r).
Proof.
  intros Hset. unfold send_telegram_alert. rewrite Hset. cbv zeta.
  exists ("https://api.telegram.org/bot" +:+ default "" (TELEGRAM_BOT_TOKEN e) +:+
          "/sendMessage"),
    [("chat_id", default "" (TELEGRAM_CHAT_ID e)); ("text", message);
     ("parse_mode", "Markdown")].
  destruct (post _ _) as [r|text].
  - unfold raise_for_status.
    destruct (Z.leb_spec 400 (status_code r)), (Z.ltb_spec (status_code r) 500),
      (Z.leb_spec 500 (status_code r)), (Z.ltb_spec (status_code r) 600);
      cbn [andb];
      (eexists; split; [reflexivity|]; split; [split|split; [|split]];
       [ intros Hline;
         first [ discriminate Hline | exists r; split; [reflexivity | lia] ]
       | intros (r' & Hr' & Hcode); injection Hr' as <-;
         first [ reflexivity | lia ]
       | intros text [=]
       | intros r' [= <-] Hcode; first [ reflexivity | lia ]
       | intros r' [= <-] Hcode; first [ reflexivity | lia ] ]).
  - eexists. split; [reflexivity|]. split; [split|split; [|split]].
    + intros Hline. discriminate Hline.
    + by intros (r & ? & _).
    + by intros text' [= <-].
    + by intros r [=].
    + by intros r [=].
Qed.

End Channels.

Lemma telegram_unset_never_posts_witness :
  List.filter Channel.is_post
    (Channel.perform (Channel.mkenv (Some "T0K") (Some "") None None)
       (Channel.mktransports (fun _ _ _ => Channel.RequestFailed "timeout")
          (fun _ _ _ _ _ => None))
       0 [SendTelegram "first"; Print "line"; SendEmail "s" "b"]) = [].
Proof.
  exact (proj2 (telegram_unset_never_posts
    (Channel.mkenv (Some "T0K") (Some "") None None)
    (Channel.mktransports (fun _ _ _ => Channel.RequestFailed "timeout")
       (fun _ _ _ _ _ => None))
    0 [SendTelegram "first"; Print "line"; SendEmail "s" "b"] eq_refl)).
Defined.

Lemma email_unset_never_mails_witness :
  List.filter Channel.is_mail
    (Channel.perform (Channel.mkenv None None None (Some "b@x.org"))
       (Channel.mktransports (fun _ _ _ => Channel.RequestFailed "timeout")
          (fun _ _ _ _ _ => None))
       0 [SendTelegram "first"; Print "line"; SendEmail "s" "b"]) = [].
Proof.
  exact (proj2 (email_unset_never_mails
    (Channel.mkenv None None None (Some "b@x.org"))
    (Channel.mktransports (fun _ _ _ => Channel.RequestFailed "timeout")
       (fun _ _ _ _ _ => None))
    0 [SendTelegram "first"; Print "line"; SendEmail "s" "b"] eq_refl)).
Defined.

Lemma telegram_posts_each_alert_once_witness :
  List.filter Channel.is_post
    (Channel.perform (Channel.mkenv (Some "T0K") (Some "42") None None)
       (Channel.mktransports (fun _ _ _ => Channel.RequestFailed "timeout")
          (fun _ _ _ _ _ => None))
       0 [SendTelegram "first"; Print "line"; SendTelegram "second"])
  = (fun message =>
       Channel.HttpPost ("https://api.telegram.org/bot" +:+ "T0K" +:+ "/sendMessage")
         [("chat_id", "42"); ("text", message); ("parse_mode", "Markdown")])
    <$> Channel.telegram_messages
          [SendTelegram "first"; Print "line"; SendTelegram "second"].
Proof.
  exact (telegram_posts_each_alert_once
           (Channel.mkenv (Some "T0K") (Some "42") None None)
           (Channel.mktransports (fun _ _ _ => Channel.RequestFailed "timeout")
              (fun _ _ _ _ _ => None))
           0 [SendTelegram "first"; Print "line"; SendTelegram "second"]
           "T0K" "42" eq_refl eq_refl eq_refl eq_refl).
Defined.

Lemma email_sends_each_mail_once_witness :
  List.filter Channel.is_mail
    (Channel.perform (Channel.mkenv None None (Some "a@x.org") (Some "b@x.org"))
       (Channel.mktransports (fun _ _ _ => Channel.RequestFailed "timeout")
          (fun _ _ _ _ _ => Some "not verified"))
       0 [SendEmail "s1" "b1"; SendTelegram "m"; SendEmail "s2" "b2"])
  = (fun m : string * string =>
       Channel.SesSendEmail "a@x.org" ["b@x.org"] m.1 m.2 "UTF-8")
    <$> Channel.email_messages
          [SendEmail "s1" "b1"; SendTelegram "m"; SendEmail "s2" "b2"].
Proof.
  exact (email_sends_each_mail_once
           (Channel.mkenv None None (Some "a@x.org") (Some "b@x.org"))
           (Channel.mktransports (fun _ _ _ => Channel.RequestFailed "timeout")
              (fun _ _ _ _ _ => Some "not verified"))
           0 [SendEmail "s1" "b1"; SendTelegram "m"; SendEmail "s2" "b2"]
           "a@x.org" "b@x.org" eq_refl eq_refl eq_refl eq_refl).
Defined.

Lemma telegram_reports_what_happened_witness :
  exists (url : string) (payload : list (string * string)) (line : string),
    Channel.send_telegram_alert (Channel.mkenv (Some "T0K") (Some "42") None None)
      (fun _ _ => Channel.Responded (Channel.mkresponse 403 "Forbidden" "u")) "hello"
    = [Channel.Stdout "Sending Telegram alert..."; Channel.HttpPost url payload;
       Channel.Stdout line] /\
    line = "Error sending Telegram alert: 403 Client Error: Forbidden for url: u".
Proof.
  destruct (telegram_reports_what_happened
              (Channel.mkenv (Some "T0K") (Some "42") None None)
              (fun _ _ => Channel.Responded (Channel.mkresponse 403 "Forbidden" "u"))
              "hello" eq_refl)
    as (url & payload & line & Hrun & _ & _ & Hclient & _).
  exists url, payload, line. split; [exact Hrun|].
  refine (Hclient (Channel.mkresponse 403 "Forbidden" "u") eq_refl _).
  simpl. lia.
Defined.

(** ** A store that can fail *)

(** Runs the monadic steps of the handler over the failing store. *)
Ltac run_remote :=
  cbv beta iota zeta delta
    [Remote.process_row Remote.get_item Remote.put_item
     process_row bind ret raise lift print get_item put_item
     send_telegram_alert send_email_alert].

(** A row over the failing store stops where the store raises, and is
    otherwise the row over the store that answers. *)
Lemma remote_process_row (b : Remote.store_faults) (today : PyDate.date)
    (hm : gmap string nat) (i : nat) (row : list string) (t : table_state) :
  Remote.process_row b today hm i row t
  = if negb (PyStr.truthy (name_of hm row)) || negb (PyStr.truthy (due_of hm row))
    then process_row today hm i row t
    else
      match Remote.get_raises b i (id_of hm row) with
      | Some e =>
          (inl e, t,
           [opening i (name_of hm row); Print ("Generated ItemID: " +:+ id_of hm row)])
      | None =>
          if is_handled t (id_of hm row) then process_row today hm i row t
          else
            match t !! id_of hm row, Remote.put_raises b i (id_of hm row) with
            | None, Some e =>
                (inl e, t,
                 opening i (name_of hm row) :: looked_up t (id_of hm row) ++
                 [Print "New item. Adding to DynamoDB as Active."])
            | _, _ => process_row today hm i row t
            end
      end.
Proof.
  unfold is_handled, looked_up, opening. run_remote.
  destruct (negb (PyStr.truthy (name_of hm row)) || negb (PyStr.truthy (due_of hm row)));
    [reflexivity|].
  run_remote.
  destruct (Remote.get_raises b i (id_of hm row)); [reflexivity|].
  run_remote.
  destruct (String.eqb (status_of (t !! id_of hm row)) "Handled"); [reflexivity|].
  destruct (t !! id_of hm row); [reflexivity|].
  run_remote.
  destruct (Remote.put_raises b i (id_of hm row)); reflexivity.
Qed.

Lemma remote_process_row_raises (b : Remote.store_faults) (today : PyDate.date)
    (hm : gmap string nat) (i : nat) (row : list string) (t : table_state) (e : exn) :
  result_of (Remote.process_row b today hm i row t) = inl e ->
  advance_days (cell hm row "AdvanceDays" "") = inl e \/
  Remote.get_raises b i (id_of hm row) = Some e \/
  Remote.put_raises b i (id_of hm row) = Some e.
Proof.
  assert (result_of (process_row today hm i row t) = inl e ->
          advance_days (cell hm row "AdvanceDays" "") = inl e) as Hrow.
  { rewrite (proj1 (process_row_verdict today hm i row t)).
    apply row_verdict_raises. }
  rewrite remote_process_row.
  destruct (negb (PyStr.truthy (name_of hm row)) || negb (PyStr.truthy (due_of hm row)));
    [by left; apply Hrow|].
  destruct (Remote.get_raises b i (id_of hm row)) as [e'|].
  { intros [= <-]. right. by left. }
  destruct (is_handled t (id_of hm row)); [by left; apply Hrow|].
  destruct (t !! id_of hm row); [by left; apply Hrow|].
  destruct (Remote.put_raises b i (id_of hm row)) as [e'|]; [|by left; apply Hrow].
  intros [= <-]. right. by right.
Qed.

Lemma remote_process_row_answers (b : Remote.store_faults) (today : PyDate.date)
    (hm : gmap string nat) (i : nat) (row : list string) (t : table_state) :
  (forall k : string, Remote.get_raises b i k = None) ->
  (forall k : string, Remote.put_raises b i k = None) ->
  Remote.process_row b today hm i row t = process_row today hm i row t.
Proof.
  intros Hget Hput. rewrite remote_process_row, Hget, Hput.
  by repeat case_match.
Qed.

Lemma remote_process_rows_raises (b : Remote.store_faults) (today : PyDate.date)
    (hm : gmap string nat) (rows : list (list string)) (e : exn) :
  forall (j : nat) (t : table_state),
    result_of (Remote.process_rows b today hm j rows t) = inl e ->
    exists (i : nat) (row : list string),
      rows !! i = Some row /\
      (advance_days (cell hm row "AdvanceDays" "") = inl e \/
       Remote.get_raises b (j + i) (id_of hm row) = Some e \/
       Remote.put_raises b (j + i) (id_of hm row) = Some e).
Proof.
  induction rows as [|row rest IH]; intros j t; [done|].
  simpl. unfold bind.
  pose proof (remote_process_row_raises b today hm j row t) as Hrow.
  destruct (Remote.process_row b today hm j row t) as [[[e'|[]] t1] c1].
  - intros [= <-]. exists 0%nat, row. rewrite Nat.add_0_r. split; [done|].
    by apply Hrow.
  - pose proof (IH (S j) t1) as Hrest.
    destruct (Remote.process_rows b today hm (S j) rest t1) as [[r t2] c2].
    intros Hr. destruct (Hrest Hr) as (i & row' & Hi & Hcase).
    exists (S i), row'. split; [done|].
    by replace (j + S i)%nat with (S j + i)%nat by lia.
Qed.

Lemma remote_process_rows_answers (b : Remote.store_faults) (today : PyDate.date)
    (hm : gmap string nat) (rows : list (list string)) :
  (forall (i : nat) (k : string), Remote.get_raises b i k = None) ->
  (forall (i : nat) (k : string), Remote.put_raises b i k = None) ->
  forall (j : nat) (t : table_state),
    Remote.process_rows b today hm j rows t = process_rows today hm j rows t.
Proof.
  intros Hget Hput. induction rows as [|row rest IH]; intros j t; [done|].
  simpl. unfold bind. rewrite remote_process_row_answers by done.
  destruct (process_row today hm j row t) as [[[e|[]] t1] c1]; [done|].
  by rewrite IH.
Qed.

Lemma remote_handler_answers (b : Remote.store_faults) (str_of : exn -> string)
    (today : PyDate.date) (fetched : exn + list (list string)) (t : table_state) :
  (forall (i : nat) (k : string), Remote.get_raises b i k = None) ->
  (forall (i : nat) (k : string), Remote.put_raises b i k = None) ->
  Remote.daily_reminder_handler b str_of today fetched t
  = daily_reminder_handler str_of today fetched t.
Proof.
  intros Hget Hput.
  unfold Remote.daily_reminder_handler, daily_reminder_handler, Remote.pass, pass.
  destruct fetched as [e|[|headers rows]]; [done..|].
  cbv beta iota zeta delta [bind try_except lift print ret raise].
  by rewrite remote_process_rows_answers.
Qed.

Lemma remote_handler_result (b : Remote.store_faults) (str_of : exn -> string)
    (today : PyDate.date) (fetched : exn + list (list string)) (t : table_state) :
  result_of (Remote.daily_reminder_handler b str_of today fetched t)
  = result_of (Remote.pass b today fetched t).
Proof.
  unfold Remote.daily_reminder_handler, bind, print, try_except, send_telegram_alert,
    raise.
  by destruct (Remote.pass b today fetched t) as [[[e|r] t1] c].
Qed.

(** X8. With a status store that can raise on any of its calls, and
    senders that return, the handler fails in four ways only: with the
    error of the fetch; with an IndexError on a sheet that has no header
    row; with the ValueError of [int] on an entry of the advance-days
    cell of some row, an entry that is not blank and is no integer; or
    with the error that the store raised on the [get_item] or the
    [put_item] of some row. *)
Theorem handler_failures_classified (b : Remote.store_faults) (str_of : exn -> string)
    (today : PyDate.date) (fetched : exn + list (list string)) (t : table_state)
    (e : exn) :
  result_of (Remote.daily_reminder_handler b str_of today fetched t) = inl e ->
  fetched = inl e \/
  (fetched = inr [] /\ e = IndexError) \/
  exists (headers : list string) (rows : list (list string)) (i : nat)
         (row : list string),
    fetched = inr (headers :: rows) /\ rows !! i = Some row /\
    ((exists d : string,
         d ∈ PyStr.split "," (cell (header_map headers) row "AdvanceDays" "") /\
         PyStr.strip d <> "" /\ PyStr.int (PyStr.strip d) = None /\
         e = ValueError (PyStr.strip d)) \/
     Remote.get_raises b i (id_of (header_map headers) row) = Some e \/
     Remote.put_raises b i (id_of (header_map headers) row) = Some e).
Proof.
  rewrite remote_handler_result.
  destruct fetched as [e'|[|headers rows]].
  - intros [= <-]. by left.
  - intros [= <-]. right. by left.
  - unfold Remote.pass, bind, lift, ret, print.
    pose proof (remote_process_rows_raises b today (header_map headers) rows e 0 t)
      as Hrows.
    destruct (Remote.process_rows b today (header_map headers) 0 rows t)
      as [[[e'|[]] t1] c1]; [|done].
    intros [= <-]. right. right.
    destruct (Hrows eq_refl) as (i & row & Hi & Hcase).
    exists headers, rows, i, row. split; [done|]. split; [done|].
    destruct Hcase as [Hadv | Hstore]; [|by right].
    left. apply int_fields_raises in Hadv as (d & Hd & Hrest). by exists d.
Qed.

Lemma handler_failures_classified_witness :
  inr [sample_headers; car_insurance] = inl (ServiceError "throttled") \/
  (inr [sample_headers; car_insurance] = (inr [] : exn + list (list string)) /\
   ServiceError "throttled" = IndexError) \/
  exists (headers : list string) (rows : list (list string)) (i : nat)
         (row : list string),
    inr [sample_headers; car_insurance]
    = (inr (headers :: rows) : exn + list (list string)) /\
    rows !! i = Some row /\
    ((exists d : string,
         d ∈ PyStr.split "," (cell (header_map headers) row "AdvanceDays" "") /\
         PyStr.strip d <> "" /\ PyStr.int (PyStr.strip d) = None /\
         ServiceError "throttled" = ValueError (PyStr.strip d)) \/
     Remote.get_raises throttled i (id_of (header_map headers) row)
     = Some (ServiceError "throttled") \/
     Remote.put_raises throttled i (id_of (header_map headers) row)
     = Some (ServiceError "throttled")).
Proof.
  apply (handler_failures_classified throttled (fun _ => "failed")
           (PyDate.mkdate 2025 2 22) (inr [sample_headers; car_insurance]) ∅
           (ServiceError "throttled")).
  vm_compute. reflexivity.
Defined.

(** X9. When the status store answers every call, on a sheet with a
    header row in which the advance-days cell of every row parses, the
    handler returns the success answer, its sends are the deliveries of
    the verdict of the rows (so there is no error alert), and its last
    call prints that the check finished. *)
Theorem well_formed_sheet_succeeds (b : Remote.store_faults) (str_of : exn -> string)
    (today : PyDate.date) (headers : list string) (rows : list (list string))
    (t : table_state) :
  (forall (i : nat) (k : string), Remote.get_raises b i k = None) ->
  (forall (i : nat) (k : string), Remote.put_raises b i k = None) ->
  (forall row : list string,
      row ∈ rows ->
      exists l : list Z,
        advance_days (cell (header_map headers) row "AdvanceDays" "") = inr l) ->
  result_of (Remote.daily_reminder_handler b str_of today (inr (headers :: rows)) t)
  = inr success /\
  sends (calls_of (Remote.daily_reminder_handler b str_of today
                     (inr (headers :: rows)) t))
  = deliveries (pass_verdict today (header_map headers) (is_handled t) rows).2 /\
  last (calls_of (Remote.daily_reminder_handler b str_of today
                    (inr (headers :: rows)) t))
  = Some (Print (nl +:+ "Daily reminder check finished successfully.")).
Proof.
  intros Hget Hput Hwf. rewrite remote_handler_answers by done.
  by apply answering_store_succeeds.
Qed.

Lemma well_formed_sheet_succeeds_witness :
  result_of (Remote.daily_reminder_handler Remote.answers (fun _ => "failed")
               (PyDate.mkdate 2025 2 22)
               (inr [sample_headers; car_insurance; home_loan]) ∅)
  = inr success.
Proof.
  refine (proj1 (well_formed_sheet_succeeds Remote.answers (fun _ => "failed")
                   (PyDate.mkdate 2025 2 22) sample_headers
                   [car_insurance; home_loan] ∅ _ _ _)).
  - reflexivity.
  - reflexivity.
  - intros row Hin.
    apply elem_of_cons in Hin as [-> | Hin]; [by exists [7; 3; 1]|].
    apply list_elem_of_singleton in Hin as ->. by exists [3].
Defined.

(** ** The advance days of the specification *)

(** The parse of the code and the parse of the specification agree on
    every cell on which the code returns, and the code returns on every
    cell whose entries are all blank or integers. *)
Lemma int_fields_returns (fields : list string) (l : list Z) :
  int_fields fields = inr l ->
  l = omap (fun d => PyStr.int (PyStr.strip d)) fields.
Proof.
  revert l. induction fields as [|d rest IH]; intros l; simpl.
  { by intros [= <-]. }
  destruct (PyStr.truthy (PyStr.strip d)) eqn:Htruthy.
  - destruct (PyStr.int (PyStr.strip d)) as [n|]; [|done].
    destruct (int_fields rest) as [e|ns]; [done|].
    intros [= <-]. simpl. by rewrite (IH ns).
  - apply truthy_false in Htruthy. rewrite Htruthy. simpl. apply IH.
Qed.

Lemma advance_days_returns (advance_days_str : string) (l : list Z) :
  advance_days advance_days_str = inr l -> l = advance_days_spec advance_days_str.
Proof. apply int_fields_returns. Qed.

Lemma advance_days_well_formed (advance_days_str : string) :
  (forall d : string,
      d ∈ PyStr.split "," advance_days_str ->
      PyStr.strip d = "" \/ is_Some (PyStr.int (PyStr.strip d))) ->
  advance_days advance_days_str = inr (advance_days_spec advance_days_str).
Proof.
  intros Hwf.
  destruct (advance_days advance_days_str) as [e|l] eqn:Hadv.
  - apply int_fields_raises in Hadv as (d & Hin & Hne & Hint & _).
    destruct (Hwf d Hin) as [Hblank | [n Hn]]; congruence.
  - by rewrite (advance_days_returns _ _ Hadv).
Qed.

(** C2. The row of the Car Insurance due on 03/01/2025 with the advance
    days [7,abc], on 02/22/2025 and with no item stored, is a valid row
    due in 7 days, and 7 is in the advance days that the specification
    reads from the cell; yet the row raises the ValueError of [int] on
    [abc] and sends nothing, so no DueSoon event is produced.  With the
    cell [ 7 , ,3], whose entries are integers or blank, the same row
    does send the DueSoon event for 7 days. *)
Theorem due_soon_lost_on_malformed_entry :
  PyStr.truthy (name_of (header_map sample_headers) car_insurance_malformed) = true /\
  PyDate.strptime_mdY (due_of (header_map sample_headers) car_insurance_malformed)
  = Some (PyDate.mkdate 2025 3 1) /\
  is_handled ∅ (id_of (header_map sample_headers) car_insurance_malformed) = false /\
  PyDate.days_between (PyDate.mkdate 2025 3 1) (PyDate.mkdate 2025 2 22) = 7 /\
  advance_days_spec (cell (header_map sample_headers) car_insurance_malformed
                       "AdvanceDays" "") = [7] /\
  result_of (process_row (PyDate.mkdate 2025 2 22) (header_map sample_headers) 0
               car_insurance_malformed ∅) = inl (ValueError "abc") /\
  sends (calls_of (process_row (PyDate.mkdate 2025 2 22) (header_map sample_headers) 0
                     car_insurance_malformed ∅)) = [] /\
  advance_days (cell (header_map sample_headers) car_insurance_blank_entry
                  "AdvanceDays" "") = inr [7; 3] /\
  sends (calls_of (process_row (PyDate.mkdate 2025 2 22) (header_map sample_headers) 0
                     car_insurance_blank_entry ∅))
  = delivery (DueSoon "Car Insurance" "03/01/2025" 7 "P-1" "120" "N/A" "N/A").
Proof. repeat split; vm_compute; reflexivity. Qed.
